(** * The aiortc session controller ([worker/handler.py])

    A shallow embedding of the [Handler] class: the request dispatcher
    ([processRequest]), the notification handler ([processNotification]), the
    data-channel event callbacks, the buffered-amount poller and the statistics
    serializers, followed by the properties the specification states about
    them.

    Python objects that cross the RPC channel are values of [pyval].  The
    handler's mutable fields, the state of the media engine and the trace of
    everything the handler does to the outside world (notifications, log
    lines, engine calls) are threaded through a state-and-exception monad in
    which, as in Python, mutations made before a [raise] persist. *)

From Stdlib Require Import ZArith String Ascii List Lia.
From stdpp Require Import base option list strings gmap.

Local Open Scope string_scope.
Local Open Scope list_scope.
Local Open Scope Z_scope.
#[local] Set Warnings "-register-all,-clear-no-such-hyp".

(** ** Python values *)

(** The values that reach the handler: JSON data decoded by the channel
    ([None], booleans, integers, decimal numbers [m * 10^e], strings, lists,
    objects with string keys), the [str]/[bytes] messages of a data channel,
    [datetime] stamps (microseconds since the epoch) and instances of the
    engine's classes, as a class name with an attribute dictionary. *)
Inductive pyval :=
| PyNone
| PyBool (b : bool)
| PyInt (n : Z)
| PyFloat (m e : Z)
| PyStr (s : string)
| PyBytes (b : list Byte.byte)
| PyList (l : list pyval)
| PyDict (d : list (string * pyval))
| PyDatetime (us : Z)
| PyObject (cls : string) (attrs : list (string * pyval)).

(** The exceptions the handler can end with.  [EngineError] stands for
    whatever is raised inside a call into the media engine, the track source
    or a library constructor; the handler never inspects it. *)
Inductive pyexn :=
| TypeError (msg : string)
| KeyError (key : pyval)
| AttributeError (msg : string)
| EngineError (what : string).

Definition py_typename (v : pyval) : string :=
  match v with
  | PyNone => "NoneType"
  | PyBool _ => "bool"
  | PyInt _ => "int"
  | PyFloat _ _ => "float"
  | PyStr _ => "str"
  | PyBytes _ => "bytes"
  | PyList _ => "list"
  | PyDict _ => "dict"
  | PyDatetime _ => "datetime.datetime"
  | PyObject cls _ => cls
  end.

Definition no_attribute (v : pyval) (name : string) : pyexn :=
  AttributeError ("'" +:+ py_typename v +:+ "' object has no attribute '" +:+ name +:+ "'").

(** [v is None] *)
Definition is_None (v : pyval) : bool :=
  match v with PyNone => true | _ => false end.

(** [v == s] for a string literal [s] *)
Definition py_eq_str (v : pyval) (s : string) : bool :=
  match v with PyStr s' => String.eqb s' s | _ => false end.

(** [isinstance(v, cls)] for an engine class *)
Definition isinstance (v : pyval) (cls : string) : bool :=
  match v with PyObject c _ => String.eqb c cls | _ => false end.

(** ** Insertion-ordered dictionaries *)

(** A Python [dict] iterates in insertion order; assigning to a key that is
    present replaces the value in place, deleting removes the entry. *)
Section PyDict.
Context {K V : Type} `{EqDecision K}.

Fixpoint dict_get (d : list (K * V)) (k : K) : option V :=
  match d with
  | [] => None
  | (k', v) :: d' => if decide (k' = k) then Some v else dict_get d' k
  end.

Fixpoint dict_set (d : list (K * V)) (k : K) (v : V) : list (K * V) :=
  match d with
  | [] => [(k, v)]
  | (k', v') :: d' =>
      if decide (k' = k) then (k', v) :: d' else (k', v') :: dict_set d' k v
  end.

Fixpoint dict_del (d : list (K * V)) (k : K) : list (K * V) :=
  match d with
  | [] => []
  | (k', v') :: d' =>
      if decide (k' = k) then dict_del d' k else (k', v') :: dict_del d' k
  end.

Definition dict_keys (d : list (K * V)) : list K := map fst d.

(** The invariant of a dictionary: no key twice. *)
Definition dict_wf (d : list (K * V)) : Prop := NoDup (dict_keys d).

(** Whether an item is the entry of a key. *)
Definition has_key (k : K) (kv : K * V) : bool := bool_decide (kv.1 = k).

End PyDict.

(** [d.get(k)] on request data: the value, or [None] when the key is
    missing; a value that is no mapping has no [get]. *)
Definition py_get (d : pyval) (k : string) : pyexn + pyval :=
  match d with
  | PyDict kvs => inr (default PyNone (dict_get kvs k))
  | _ => inl (no_attribute d "get")
  end.

(** [d[k]] on request data. *)
Definition py_getitem (d : pyval) (k : string) : pyexn + pyval :=
  match d with
  | PyDict kvs =>
      match dict_get kvs k with
      | Some v => inr v
      | None => inl (KeyError (PyStr k))
      end
  | _ => inl (TypeError ("'" +:+ py_typename d +:+ "' object is not subscriptable with a str"))
  end.

(** [o.name] for the attribute names the handler reads ([type], [sdp], [id],
    [timestamp], the statistics fields): only instances carry them. *)
Definition py_getattr (o : pyval) (name : string) : pyexn + pyval :=
  match o with
  | PyObject _ attrs =>
      match dict_get attrs name with
      | Some v => inr v
      | None => inl (no_attribute o name)
      end
  | _ => inl (no_attribute o name)
  end.

(** [t.timestamp()] for a [datetime] [t]: seconds since the epoch, as the
    decimal [us * 10^-6].  The model stops at that: the rounding to a binary
    double and the range check of a naive [datetime] are not modelled, and
    among the values of [pyval] only a [datetime] has the method, so any
    other value answers as one without the attribute. *)
Definition py_timestamp (t : pyval) : pyexn + pyval :=
  match t with
  | PyDatetime us => inr (PyFloat us (-6))
  | _ => inl (no_attribute t "timestamp")
  end.

(** Modelled from the spec: the constructor of [RTCSessionDescription]
    belongs to the engine's library, not to src/; its parameters are the two
    fields the specification gives a description, [{type, sdp}].  Python
    binds the keyword arguments before the constructor runs and raises
    [TypeError] for a keyword the constructor does not have, else for a
    parameter left without a value. *)
Definition unexpected_keyword (kwargs : list (string * pyval)) : bool :=
  existsb (fun k => negb (String.eqb k "sdp" || String.eqb k "type")) (dict_keys kwargs).

Definition missing_argument (kwargs : list (string * pyval)) : bool :=
  match dict_get kwargs "sdp", dict_get kwargs "type" with
  | Some _, Some _ => false
  | _, _ => true
  end.


(** Whether a value can be a dictionary key. *)
Definition hashable (v : pyval) : bool :=
  match v with
  | PyList _ | PyDict _ | PyObject _ _ => false
  | _ => true
  end.

(** ** [base64.b64encode] and [str] of a [bytes] object *)

Definition byte_val (b : Byte.byte) : Z := Z.of_N (Byte.to_N b).

Definition byte_of_Z (z : Z) : Byte.byte :=
  default Byte.x00 (Byte.of_N (Z.to_N z)).

Definition b64_alphabet : list Byte.byte :=
  list_byte_of_string
    "ABCDEFGHIJKLMNOPQRSTUVWXYZabcdefghijklmnopqrstuvwxyz0123456789+/".

Definition b64_pad : Byte.byte := byte_of_Z 61.

(** The character of a 6-bit group. *)
Definition b64_char (i : Z) : Byte.byte :=
  nth (Z.to_nat i) b64_alphabet b64_pad.

(** RFC 4648 with the standard alphabet and padding, three input bytes to four
    output characters, as [base64.b64encode] returns it (a [bytes] object). *)
Fixpoint b64encode (bs : list Byte.byte) : list Byte.byte :=
  match bs with
  | [] => []
  | [a] =>
      let n := Z.shiftl (byte_val a) 16 in
      [b64_char (Z.shiftr n 18); b64_char (Z.land (Z.shiftr n 12) 63);
       b64_pad; b64_pad]
  | [a; b] =>
      let n := Z.lor (Z.shiftl (byte_val a) 16) (Z.shiftl (byte_val b) 8) in
      [b64_char (Z.shiftr n 18); b64_char (Z.land (Z.shiftr n 12) 63);
       b64_char (Z.land (Z.shiftr n 6) 63); b64_pad]
  | a :: b :: c :: rest =>
      let n := Z.lor (Z.shiftl (byte_val a) 16)
                 (Z.lor (Z.shiftl (byte_val b) 8) (byte_val c)) in
      b64_char (Z.shiftr n 18) :: b64_char (Z.land (Z.shiftr n 12) 63) ::
      b64_char (Z.land (Z.shiftr n 6) 63) :: b64_char (Z.land n 63) ::
      b64encode rest
  end.

(** The text a [bytes] object of ASCII characters stands for
    ([b.decode("ascii")]). *)
Definition ascii_decode (bs : list Byte.byte) : string := string_of_list_byte bs.

Definition hex_digit (d : Z) : Byte.byte :=
  if d <? 10 then byte_of_Z (48 + d) else byte_of_Z (87 + d).

(** One byte inside the [repr] of a [bytes] object quoted with [quote]. *)
Definition repr_byte (quote : Z) (b : Byte.byte) : list Byte.byte :=
  let c := byte_val b in
  if (c =? quote) || (c =? 92) then [byte_of_Z 92; b]
  else if c =? 9 then [byte_of_Z 92; byte_of_Z 116]
  else if c =? 10 then [byte_of_Z 92; byte_of_Z 110]
  else if c =? 13 then [byte_of_Z 92; byte_of_Z 114]
  else if (c <? 32) || (127 <=? c) then
    [byte_of_Z 92; byte_of_Z 120; hex_digit (Z.shiftr c 4); hex_digit (Z.land c 15)]
  else [b].

Definition has_byte (c : Z) (bs : list Byte.byte) : bool :=
  existsb (fun b => byte_val b =? c) bs.

(** [str(b)] for a [bytes] object [b]: Python 3 gives its [repr], the letter
    b and the quoted, escaped content; the quote is the apostrophe unless the
    content has an apostrophe and no double quote. *)
Definition str_of_bytes (bs : list Byte.byte) : string :=
  let quote := if has_byte 39 bs && negb (has_byte 34 bs) then 34 else 39 in
  string_of_list_byte
    (byte_of_Z 98 :: byte_of_Z quote :: flat_map (repr_byte quote) bs ++ [byte_of_Z quote])%list.

(** A byte that [repr] prints as itself inside apostrophes. *)
Definition plain (b : Byte.byte) : bool :=
  let c := byte_val b in
  negb (c =? 39) && negb (c =? 92) && (32 <=? c) && (c <? 127).


(** ** The boundary: channel messages, media engine, track source *)

(** Modelled from the spec: the [Request] class of channel.py, which is not
    under src/ ("Inbound request (method, data, optional internal fields)").
    The only internal field the handler reads is [dataChannelId], an opaque
    string or absent: [dataChannelId] below is [internal.get("dataChannelId")]. *)
Module Request.
Record t := mk { method : string; dataChannelId : option string; data : pyval }.
End Request.

(** Modelled from the spec: the [Notification] class of channel.py, which is
    not under src/ ("Inbound notification (event, data, optional internal
    fields)"). *)
Module Notification.
Record t := mk { event : string; dataChannelId : option string; data : pyval }.
End Notification.

(** The keyword arguments of [RTCPeerConnection.createDataChannel]. *)
Module Params.
Record t := mk {
  negotiated : bool;
  id : pyval;
  ordered : pyval;
  maxPacketLifeTime : pyval;
  maxRetransmits : pyval;
  label : pyval;
  protocol : pyval
}.
End Params.

(** The media engine (aiortc), the track source ([getTrack]) and the library
    calls the handler makes are external.  The engine is a state
    [RTCPeerConnection] that owns every transceiver and data channel; the
    handler holds references to them.  A call steps the state and returns a
    value or raises (the [string] is the opaque cause). *)
Definition engine_op (S A : Type) : Type := S -> (string + A) * S.

Record Engine := {
  RTCPeerConnection : Type;
  MediaStreamTrack : Type;
  RTCRtpTransceiver : Type;
  RTCDataChannel : Type;
  (* track source and tracks *)
  getTrack : pyval -> pyval -> string + MediaStreamTrack;
  track_id : MediaStreamTrack -> string;
  track_kind : MediaStreamTrack -> string;
  (* library calls *)
  new_RTCSessionDescription : list (string * pyval) -> string + pyval;
  b64decode : pyval -> string + list Byte.byte;
  (* peer connection *)
  pc_localDescription : RTCPeerConnection -> pyval;
  pc_signalingState : RTCPeerConnection -> string;
  pc_iceGatheringState : RTCPeerConnection -> string;
  pc_iceConnectionState : RTCPeerConnection -> string;
  pc_addTransceiver : MediaStreamTrack -> engine_op RTCPeerConnection RTCRtpTransceiver;
  pc_getTransceivers : RTCPeerConnection -> list RTCRtpTransceiver;
  pc_setLocalDescription : pyval -> engine_op RTCPeerConnection unit;
  pc_setRemoteDescription : pyval -> engine_op RTCPeerConnection unit;
  pc_createOffer : engine_op RTCPeerConnection pyval;
  pc_createAnswer : engine_op RTCPeerConnection pyval;
  pc_getStats : engine_op RTCPeerConnection (list (string * pyval));
  pc_createDataChannel : Params.t -> engine_op RTCPeerConnection RTCDataChannel;
  pc_close : engine_op RTCPeerConnection unit;
  (* transceivers *)
  transceiver_mid : RTCRtpTransceiver -> RTCPeerConnection -> option string;
  transceiver_set_direction : RTCRtpTransceiver -> string -> engine_op RTCPeerConnection unit;
  sender_replaceTrack : RTCRtpTransceiver -> option MediaStreamTrack -> engine_op RTCPeerConnection unit;
  sender_getStats : RTCRtpTransceiver -> engine_op RTCPeerConnection (list (string * pyval));
  receiver_getStats : RTCRtpTransceiver -> engine_op RTCPeerConnection (list (string * pyval));
  (* data channels *)
  dc_id : RTCDataChannel -> RTCPeerConnection -> pyval;
  dc_ordered : RTCDataChannel -> RTCPeerConnection -> pyval;
  dc_maxPacketLifeTime : RTCDataChannel -> RTCPeerConnection -> pyval;
  dc_maxRetransmits : RTCDataChannel -> RTCPeerConnection -> pyval;
  dc_label : RTCDataChannel -> RTCPeerConnection -> pyval;
  dc_protocol : RTCDataChannel -> RTCPeerConnection -> pyval;
  dc_readyState : RTCDataChannel -> RTCPeerConnection -> pyval;
  dc_bufferedAmount : RTCDataChannel -> RTCPeerConnection -> pyval;
  dc_bufferedAmountLowThreshold : RTCDataChannel -> RTCPeerConnection -> pyval;
  dc_set_bufferedAmountLowThreshold : RTCDataChannel -> pyval -> engine_op RTCPeerConnection unit;
  dc_send : RTCDataChannel -> pyval -> engine_op RTCPeerConnection unit;
  dc_close : RTCDataChannel -> engine_op RTCPeerConnection unit
}.

(** The error taxonomy of the specification, section 7. *)
Inductive error_kind := BadRequest | NotFound | UnsupportedOperation | EngineFailure.

(** How the exceptions of the code read in that taxonomy: a missing required
    field is a [TypeError] that says missing, an unknown method or event a
    [TypeError] that says unknown, a lookup miss the [KeyError] of the
    registry, and whatever the engine raised is passed through.  Any other
    exception is none of them. *)
Definition spec_error_kind (e : pyexn) : option error_kind :=
  match e with
  | KeyError _ => Some NotFound
  | EngineError _ => Some EngineFailure
  | TypeError msg =>
      if String.prefix "missing " msg then Some BadRequest
      else if String.prefix "unknown " msg then Some UnsupportedOperation
      else None
  | AttributeError _ => None
  end.

Section Handler.
Context {E : Engine}.

Local Abbreviation pc := (RTCPeerConnection E).
Local Abbreviation track := (MediaStreamTrack E).
Local Abbreviation transceiver := (RTCRtpTransceiver E).
Local Abbreviation datachannel := (RTCDataChannel E).

(** *** What the handler does to the outside *)

Inductive call :=
| CallGetTrack (playerId kind : pyval)
| CallNewSessionDescription (kwargs : list (string * pyval))
| CallB64decode (data : pyval)
| CallAddTransceiver (t : track)
| CallSetDirection (t : transceiver) (direction : string)
| CallReplaceTrack (t : transceiver) (new : option track)
| CallSetLocalDescription (description : pyval)
| CallSetRemoteDescription (description : pyval)
| CallCreateOffer
| CallCreateAnswer
| CallGetStats
| CallSenderGetStats (t : transceiver)
| CallReceiverGetStats (t : transceiver)
| CallCreateDataChannel (p : Params.t)
| CallSetThreshold (dc : datachannel) (value : pyval)
| CallSend (dc : datachannel) (data : pyval)
| CallClose (dc : datachannel)
| CallPcClose.

Inductive effect :=
| Notify (target : option string) (event : string) (data : pyval)
| Log (level msg : string)
| Call (c : call).

(** *** The handler object *)

(** The fields of [self], with the engine session behind [self._pc] and
    the trace of effects so far (oldest first).  [_transceivers] is only
    looked up, stored into and deleted from; [_dataChannels] is also
    iterated, so it keeps its insertion order. *)
Record Handler := mkHandler {
  _handlerId : string;
  _pc : pc;
  _transceivers : gmap string transceiver;
  _dataChannels : list (option string * datachannel);
  _dataChannelsBufferedAmountTask : bool;
  trace : list effect
}.

Definition set_pc (p : pc) (s : Handler) : Handler :=
  mkHandler (_handlerId s) p (_transceivers s) (_dataChannels s)
    (_dataChannelsBufferedAmountTask s) (trace s).

Definition set_transceivers (m : gmap string transceiver) (s : Handler) : Handler :=
  mkHandler (_handlerId s) (_pc s) m (_dataChannels s)
    (_dataChannelsBufferedAmountTask s) (trace s).

Definition set_dataChannels (d : list (option string * datachannel)) (s : Handler) : Handler :=
  mkHandler (_handlerId s) (_pc s) (_transceivers s) d
    (_dataChannelsBufferedAmountTask s) (trace s).

Definition set_task (b : bool) (s : Handler) : Handler :=
  mkHandler (_handlerId s) (_pc s) (_transceivers s) (_dataChannels s) b (trace s).

Definition add_trace (e : effect) (s : Handler) : Handler :=
  mkHandler (_handlerId s) (_pc s) (_transceivers s) (_dataChannels s)
    (_dataChannelsBufferedAmountTask s) (trace s ++ [e]).

(** *** State and exceptions *)

(** A computation returns a value or raises; the state it leaves behind is
    kept in both cases. *)
Definition M (A : Type) : Type := Handler -> (pyexn + A) * Handler.

Definition ret {A} (a : A) : M A := fun s => (inr a, s).

Definition bind {A B} (m : M A) (k : A -> M B) : M B :=
  fun s => match m s with
           | (inr a, s') => k a s'
           | (inl e, s') => (inl e, s')
           end.

Definition raise {A} (e : pyexn) : M A := fun s => (inl e, s).

Definition lift {A} (r : pyexn + A) : M A := fun s => (r, s).

Definition gets {A} (f : Handler -> A) : M A := fun s => (inr (f s), s).

Definition modify (f : Handler -> Handler) : M unit := fun s => (inr tt, f s).

Definition wrap {A} (r : string + A) : pyexn + A :=
  match r with inl e => inl (EngineError e) | inr a => inr a end.

(** A call into the engine: logged, then run on the engine's state. *)
Definition engine {A} (c : call) (op : engine_op pc A) : M A :=
  fun s => let '(r, p) := op (_pc s) in (wrap r, set_pc p (add_trace (Call c) s)).

(** A call into the track source or a library. *)
Definition library {A} (c : call) (r : string + A) : M A :=
  fun s => (wrap r, add_trace (Call c) s).

(** [try: body except KeyError: pass] *)
Definition except_KeyError_pass (body : M unit) : M unit :=
  fun s => match body s with
           | (inl (KeyError _), s') => (inr tt, s')
           | r => r
           end.

(** Modelled from the spec: [Channel.notify] of channel.py, which is not
    under src/ ("Outbound notification (target id, event name, optional
    payload)"): one-way, the notification goes out and nothing comes back. *)
Definition notify (target : option string) (event : string) (data : pyval) : M unit :=
  modify (add_trace (Notify target event data)).

(** Modelled from the spec: [Logger] of logger.py, which is not under src/
    (the spec only says that a warning is logged). *)
Definition Logger (level msg : string) : M unit :=
  modify (add_trace (Log level msg)).

Notation "x <- c1 ;; c2" := (bind c1 (fun x => c2))
  (at level 100, c1 at next level, right associativity).
Notation "c1 ;; c2" := (bind c1 (fun _ => c2))
  (at level 100, right associativity).

(** *** Registry accesses *)

(** [self._transceivers[key]]: the keys stored are track identifiers, which
    are strings, so no other hashable value is found. *)
Definition transceivers_getitem (key : pyval) : M transceiver :=
  fun s =>
    match key with
    | PyStr k =>
        match _transceivers s !! k with
        | Some t => (inr t, s)
        | None => (inl (KeyError key), s)
        end
    | _ =>
        if hashable key then (inl (KeyError key), s)
        else (inl (TypeError ("unhashable type: '" +:+ py_typename key +:+ "'")), s)
    end.

(** [del self._transceivers[key]] *)
Definition transceivers_delitem (key : pyval) : M unit :=
  t <- transceivers_getitem key ;;
  match key with
  | PyStr k => modify (fun s => set_transceivers (delete k (_transceivers s)) s)
  | _ => ret tt
  end.

(** [self._dataChannels[dataChannelId]] *)
Definition dataChannels_getitem (dataChannelId : option string) : M datachannel :=
  fun s =>
    match dict_get (_dataChannels s) dataChannelId with
    | Some dc => (inr dc, s)
    | None => (inl (KeyError (from_option PyStr PyNone dataChannelId)), s)
    end.

(** [del self._dataChannels[dataChannelId]] *)
Definition dataChannels_delitem (dataChannelId : option string) : M unit :=
  dc <- dataChannels_getitem dataChannelId ;;
  modify (fun s => set_dataChannels (dict_del (_dataChannels s) dataChannelId) s).

(** *** [Handler.__init__] *)

(** A new handler around a new engine session [p]: empty registries, the
    poller task scheduled, nothing done yet. *)
Definition Handler_init (handlerId : string) (p : pc) : Handler :=
  mkHandler handlerId p ∅ [] true [].

(** The callbacks registered on the peer connection. *)
Definition on_track (t : track) : M unit :=
  Logger "debug"
    ("handler: ontrack [kind:" +:+ track_kind E t +:+ ", id:" +:+ track_id E t +:+ "]").

Definition on_signalingstatechange : M unit :=
  state <- gets (fun s => pc_signalingState E (_pc s)) ;;
  Logger "debug" ("handler: signalingstatechange [state:" +:+ state +:+ "]") ;;
  handlerId <- gets _handlerId ;;
  notify (Some handlerId) "signalingstatechange" (PyStr state).

Definition on_icegatheringstatechange : M unit :=
  state <- gets (fun s => pc_iceGatheringState E (_pc s)) ;;
  Logger "debug" ("handler: icegatheringstatechange [state:" +:+ state +:+ "]") ;;
  handlerId <- gets _handlerId ;;
  notify (Some handlerId) "icegatheringstatechange" (PyStr state).

Definition on_iceconnectionstatechange : M unit :=
  state <- gets (fun s => pc_iceConnectionState E (_pc s)) ;;
  Logger "debug" ("handler: iceconnectionstatechange [state:" +:+ state +:+ "]") ;;
  handlerId <- gets _handlerId ;;
  notify (Some handlerId) "iceconnectionstatechange" (PyStr state).

(** *** The buffered-amount poller *)

(** The body of the [for] loop of [checkDataChannelsBufferedAmount] over the
    items of the registry.  Awaiting [notify] lets other tasks run: [others]
    lists what they do to the engine during each of these waits (nothing once
    the list is used up).  They do not touch the registry: a dictionary that
    changes size while it is iterated ends the loop with a RuntimeError,
    which is outside this model. *)
Fixpoint poller_items (items : list (option string * datachannel))
    (others : list (pc -> pc)) : M unit :=
  match items with
  | [] => ret tt
  | (dataChannelId, dataChannel) :: rest =>
      amount <- gets (fun s => dc_bufferedAmount E dataChannel (_pc s)) ;;
      notify dataChannelId "bufferedamount" amount ;;
      modify (fun s => set_pc (hd (fun p => p) others (_pc s)) s) ;;
      poller_items rest (tl others)
  end.

(** One round of [checkDataChannelsBufferedAmount], after the sleep. *)
Definition checkDataChannelsBufferedAmount (others : list (pc -> pc)) : M unit :=
  items <- gets _dataChannels ;;
  poller_items items others.

(** *** [Handler.close] *)

Definition close : M unit :=
  modify (set_task false) ;;
  engine CallPcClose (pc_close E).

(** *** The statistics serializers *)

(** A serializer is a dictionary display: each entry reads one attribute of
    the statistics object, in order; [timestamp] and [remoteTimestamp] are
    [datetime] values turned into seconds. *)
Inductive field :=
| Attr (name : string)
| Stamp (name : string).

Definition field_name (f : field) : string :=
  match f with Attr n | Stamp n => n end.

Definition read_field (stats : pyval) (f : field) : pyexn + pyval :=
  match f with
  | Attr name => py_getattr stats name
  | Stamp name =>
      match py_getattr stats name with
      | inr t => py_timestamp t
      | inl e => inl e
      end
  end.

Fixpoint read_fields (stats : pyval) (fs : list field) : pyexn + list (string * pyval) :=
  match fs with
  | [] => inr []
  | f :: fs' =>
      match read_field stats f with
      | inl e => inl e
      | inr v =>
          match read_fields stats fs' with
          | inl e => inl e
          | inr d => inr ((field_name f, v) :: d)
          end
      end
  end.

Definition serialize (fs : list field) (stats : pyval) : pyexn + pyval :=
  match read_fields stats fs with
  | inl e => inl e
  | inr d => inr (PyDict d)
  end.

Definition inbound_fields : list field :=
  [Stamp "timestamp"; Attr "type"; Attr "id";
   Attr "ssrc"; Attr "kind"; Attr "transportId";
   Attr "packetsReceived"; Attr "packetsLost"; Attr "jitter"].

Definition outbound_fields : list field :=
  [Stamp "timestamp"; Attr "type"; Attr "id";
   Attr "ssrc"; Attr "kind"; Attr "transportId";
   Attr "packetsSent"; Attr "bytesSent";
   Attr "trackId"].

Definition remote_inbound_fields : list field :=
  [Stamp "timestamp"; Attr "type"; Attr "id";
   Attr "ssrc"; Attr "kind"; Attr "transportId";
   Attr "packetsReceived"; Attr "packetsLost"; Attr "jitter";
   Attr "roundTripTime"; Attr "fractionLost"].

Definition remote_outbound_fields : list field :=
  [Stamp "timestamp"; Attr "type"; Attr "id";
   Attr "ssrc"; Attr "kind"; Attr "transportId";
   Attr "packetsSent"; Attr "bytesSent";
   Stamp "remoteTimestamp"].

Definition transport_fields : list field :=
  [Stamp "timestamp"; Attr "type"; Attr "id";
   Attr "packetsSent"; Attr "packetsReceived"; Attr "bytesSent";
   Attr "bytesReceived"; Attr "iceRole"; Attr "dtlsState"].

Definition _serializeInboundStats := serialize inbound_fields.
Definition _serializeOutboundStats := serialize outbound_fields.
Definition _serializeRemoteInboundStats := serialize remote_inbound_fields.
Definition _serializeRemoteOutboundStats := serialize remote_outbound_fields.
Definition _serializeTransportStats := serialize transport_fields.

(** The [if]/[elif] chains over the type of an entry: the serializer to
    run, or nothing for a type the chain has no arm for. *)
Definition transport_stats_arm (type : pyval) : option (pyval -> pyexn + pyval) :=
  if py_eq_str type "inbound-rtp" then Some _serializeInboundStats
  else if py_eq_str type "outbound-rtp" then Some _serializeOutboundStats
  else if py_eq_str type "remote-inbound-rtp" then Some _serializeRemoteInboundStats
  else if py_eq_str type "remote-outbound-rtp" then Some _serializeRemoteOutboundStats
  else if py_eq_str type "transport" then Some _serializeTransportStats
  else None.

Definition sender_stats_arm (type : pyval) : option (pyval -> pyexn + pyval) :=
  if py_eq_str type "outbound-rtp" then Some _serializeOutboundStats
  else if py_eq_str type "remote-inbound-rtp" then Some _serializeRemoteInboundStats
  else if py_eq_str type "transport" then Some _serializeTransportStats
  else None.

Definition receiver_stats_arm (type : pyval) : option (pyval -> pyexn + pyval) :=
  if py_eq_str type "inbound-rtp" then Some _serializeInboundStats
  else if py_eq_str type "remote-outbound-rtp" then Some _serializeRemoteOutboundStats
  else if py_eq_str type "transport" then Some _serializeTransportStats
  else None.

(** [for key in stats: ...] with [result] so far: the entry [stats[key]] is
    serialized under its key when the chain has an arm for its type. *)
Fixpoint stats_loop (arm : pyval -> option (pyval -> pyexn + pyval))
    (stats : list (string * pyval)) (keys : list string)
    (result : list (string * pyval)) : pyexn + list (string * pyval) :=
  match keys with
  | [] => inr result
  | key :: keys' =>
      match dict_get stats key with
      | None => inl (KeyError (PyStr key))
      | Some entry =>
          match py_getattr entry "type" with
          | inl e => inl e
          | inr type =>
              match arm type with
              | None => stats_loop arm stats keys' result
              | Some ser =>
                  match ser entry with
                  | inl e => inl e
                  | inr v => stats_loop arm stats keys' (dict_set result key v)
                  end
              end
          end
      end
  end.

Definition serialize_report (arm : pyval -> option (pyval -> pyexn + pyval))
    (stats : list (string * pyval)) : pyexn + pyval :=
  match stats_loop arm stats (dict_keys stats) [] with
  | inl e => inl e
  | inr result => inr (PyDict result)
  end.

(** [x.mid == mid] *)
Definition mid_matches (x_mid : option string) (mid : pyval) : bool :=
  match x_mid with
  | Some m => py_eq_str mid m
  | None => is_None mid
  end.

(** [_getTransceiverByMid]: the first live transceiver with that mid, or
    [None]. *)
Definition _getTransceiverByMid (mid : pyval) : M (option transceiver) :=
  gets (fun s =>
    find (fun x => mid_matches (transceiver_mid E x (_pc s)) mid)
      (pc_getTransceivers E (_pc s))).

(** *** The data-channel callbacks *)

(** [createDataChannel] registers these on the new channel; each is a
    closure over the [dataChannelId] of the request that created it. *)
Definition on_open (dataChannelId : option string) : M unit :=
  notify dataChannelId "open" PyNone.

Definition on_closing (dataChannelId : option string) : M unit :=
  notify dataChannelId "closing" PyNone.

Definition on_close (dataChannelId : option string) : M unit :=
  except_KeyError_pass
    (dataChannels_delitem dataChannelId ;;
     notify dataChannelId "close" PyNone).

Definition on_message (dataChannelId : option string) (message : pyval) : M unit :=
  match message with
  | PyStr _ => notify dataChannelId "message" message
  | _ => ret tt
  end ;;
  match message with
  | PyBytes b =>
      let message_bytes := b64encode b in
      notify dataChannelId "binary" (PyStr (str_of_bytes message_bytes))
  | _ => ret tt
  end.

Definition on_bufferedamountlow (dataChannelId : option string) : M unit :=
  notify dataChannelId "bufferedamountlow" PyNone.

(** *** [Handler.processRequest] *)

(** The constructor [RTCSessionDescription] called with the entries of
    [data] as keyword arguments: spreading a value that is no mapping raises
    [TypeError], so does a mapping whose entries do not bind to the
    constructor's parameters; what the constructor itself raises (a [type]
    it does not accept) is the library's business. *)
Definition new_description (data : pyval) : M pyval :=
  match data with
  | PyDict kwargs =>
      if unexpected_keyword kwargs then
        raise (TypeError "RTCSessionDescription.__init__() got an unexpected keyword argument")
      else if missing_argument kwargs then
        raise (TypeError "RTCSessionDescription.__init__() missing a required argument")
      else
        library (CallNewSessionDescription kwargs) (new_RTCSessionDescription E kwargs)
  | _ =>
      raise (TypeError ("argument after ** must be a mapping, not " +:+ py_typename data))
  end.

(** [{"type": d.type, "sdp": d.sdp}] *)
Definition description_dict (d : pyval) : M pyval :=
  type <- lift (py_getattr d "type") ;;
  sdp <- lift (py_getattr d "sdp") ;;
  ret (PyDict [("type", type); ("sdp", sdp)]).

Definition processRequest (request : Request.t) : M pyval :=
  let method := Request.method request in
  let data := Request.data request in
  if String.eqb method "handler.getLocalDescription" then
    localDescription <- gets (fun s => pc_localDescription E (_pc s)) ;;
    if negb (is_None localDescription) then description_dict localDescription
    else ret PyNone

  else if String.eqb method "handler.addTrack" then
    playerId <- lift (py_getitem data "playerId") ;;
    kind <- lift (py_getitem data "kind") ;;
    track <- library (CallGetTrack playerId kind) (getTrack E playerId kind) ;;
    transceiver <- engine (CallAddTransceiver track) (pc_addTransceiver E track) ;;
    modify (fun s =>
      set_transceivers (<[track_id E track := transceiver]> (_transceivers s)) s) ;;
    ret (PyDict [("trackId", PyStr (track_id E track))])

  else if String.eqb method "handler.removeTrack" then
    trackId <- lift (py_get data "trackId") ;;
    if is_None trackId then raise (TypeError "missing trackId") else
    transceiver <- transceivers_getitem trackId ;;
    engine (CallSetDirection transceiver "inactive")
      (transceiver_set_direction E transceiver "inactive") ;;
    engine (CallReplaceTrack transceiver None)
      (sender_replaceTrack E transceiver None) ;;
    transceivers_delitem trackId ;;
    ret PyNone

  else if String.eqb method "handler.setLocalDescription" then
    if isinstance data "RTCSessionDescription" then
      raise (TypeError "request data not a RTCSessionDescription")
    else
    description <- new_description data ;;
    engine (CallSetLocalDescription description)
      (pc_setLocalDescription E description) ;;
    ret PyNone

  else if String.eqb method "handler.setRemoteDescription" then
    if isinstance data "RTCSessionDescription" then
      raise (TypeError "request data not a RTCSessionDescription")
    else
    description <- new_description data ;;
    engine (CallSetRemoteDescription description)
      (pc_setRemoteDescription E description) ;;
    ret PyNone

  else if String.eqb method "handler.createOffer" then
    offer <- engine CallCreateOffer (pc_createOffer E) ;;
    description_dict offer

  else if String.eqb method "handler.createAnswer" then
    answer <- engine CallCreateAnswer (pc_createAnswer E) ;;
    description_dict answer

  else if String.eqb method "handler.getMid" then
    trackId <- lift (py_get data "trackId") ;;
    if is_None trackId then raise (TypeError "missing trackId") else
    transceiver <- transceivers_getitem trackId ;;
    mid <- gets (fun s => transceiver_mid E transceiver (_pc s)) ;;
    ret (from_option PyStr PyNone mid)

  else if String.eqb method "handler.getTransportStats" then
    stats <- engine CallGetStats (pc_getStats E) ;;
    lift (serialize_report transport_stats_arm stats)

  else if String.eqb method "handler.getSenderStats" then
    mid <- lift (py_get data "mid") ;;
    if is_None mid then raise (TypeError "missing mid") else
    transceiver <- _getTransceiverByMid mid ;;
    match transceiver with
    | None => raise (no_attribute PyNone "sender")
    | Some transceiver =>
        stats <- engine (CallSenderGetStats transceiver) (sender_getStats E transceiver) ;;
        lift (serialize_report sender_stats_arm stats)
    end

  else if String.eqb method "handler.getReceiverStats" then
    mid <- lift (py_get data "mid") ;;
    if is_None mid then raise (TypeError "missing mid") else
    transceiver <- _getTransceiverByMid mid ;;
    match transceiver with
    | None => raise (no_attribute PyNone "receiver")
    | Some transceiver =>
        stats <- engine (CallReceiverGetStats transceiver) (receiver_getStats E transceiver) ;;
        lift (serialize_report receiver_stats_arm stats)
    end

  else if String.eqb method "handler.createDataChannel" then
    let dataChannelId := Request.dataChannelId request in
    id <- lift (py_get data "id") ;;
    ordered <- lift (py_get data "ordered") ;;
    maxPacketLifeTime <- lift (py_get data "maxPacketLifeTime") ;;
    maxRetransmits <- lift (py_get data "maxRetransmits") ;;
    label <- lift (py_get data "label") ;;
    protocol <- lift (py_get data "protocol") ;;
    let params :=
      Params.mk true id ordered maxPacketLifeTime maxRetransmits label protocol in
    dataChannel <- engine (CallCreateDataChannel params) (pc_createDataChannel E params) ;;
    modify (fun s =>
      set_dataChannels (dict_set (_dataChannels s) dataChannelId dataChannel) s) ;;
    p <- gets _pc ;;
    ret (PyDict
      [("streamId", dc_id E dataChannel p);
       ("ordered", dc_ordered E dataChannel p);
       ("maxPacketLifeTime", dc_maxPacketLifeTime E dataChannel p);
       ("maxRetransmits", dc_maxRetransmits E dataChannel p);
       ("label", dc_label E dataChannel p);
       ("protocol", dc_protocol E dataChannel p);
       ("readyState", dc_readyState E dataChannel p);
       ("bufferedAmount", dc_bufferedAmount E dataChannel p);
       ("bufferedAmountLowThreshold", dc_bufferedAmountLowThreshold E dataChannel p)])

  else
    raise (TypeError ("unknown request with method '" +:+ method +:+ "' received")).

(** *** [Handler.processNotification] *)

(** [dataChannelId is None] *)
Definition id_is_None (dataChannelId : option string) : bool :=
  match dataChannelId with None => true | Some _ => false end.

Definition processNotification (notification : Notification.t) : M unit :=
  let event := Notification.event notification in
  let dataChannelId := Notification.dataChannelId notification in
  let data := Notification.data notification in
  if String.eqb event "enableTrack" then
    Logger "warning" "handler: enabling track not implemented"

  else if String.eqb event "disableTrack" then
    Logger "warning" "handler: disabling track not implemented"

  else if String.eqb event "datachannel.send" then
    if id_is_None dataChannelId then raise (TypeError "missing dataChannelId") else
    dataChannel <- dataChannels_getitem dataChannelId ;;
    engine (CallSend dataChannel data) (dc_send E dataChannel data) ;;
    amount <- gets (fun s => dc_bufferedAmount E dataChannel (_pc s)) ;;
    notify dataChannelId "bufferedamount" amount

  else if String.eqb event "datachannel.sendBinary" then
    if id_is_None dataChannelId then raise (TypeError "missing dataChannelId") else
    dataChannel <- dataChannels_getitem dataChannelId ;;
    decoded <- library (CallB64decode data) (b64decode E data) ;;
    engine (CallSend dataChannel (PyBytes decoded)) (dc_send E dataChannel (PyBytes decoded)) ;;
    amount <- gets (fun s => dc_bufferedAmount E dataChannel (_pc s)) ;;
    notify dataChannelId "bufferedamount" amount

  else if String.eqb event "datachannel.close" then
    if id_is_None dataChannelId then raise (TypeError "missing dataChannelId") else
    dataChannel <- gets (fun s => dict_get (_dataChannels s) dataChannelId) ;;
    match dataChannel with
    | None => ret tt
    | Some dataChannel =>
        except_KeyError_pass (dataChannels_delitem dataChannelId) ;;
        engine (CallClose dataChannel) (dc_close E dataChannel)
    end

  else if String.eqb event "datachannel.setBufferedAmountLowThreshold" then
    if id_is_None dataChannelId then raise (TypeError "missing dataChannelId") else
    let value := data in
    dataChannel <- dataChannels_getitem dataChannelId ;;
    engine (CallSetThreshold dataChannel value)
      (dc_set_bufferedAmountLowThreshold E dataChannel value)

  else
    raise (TypeError ("unknown notification with event '" +:+ event +:+ "' received")).

(** *** Runs *)

(** What can happen to a handler: a request or a notification arrives, the
    engine fires an event (on the peer connection, or on a data channel whose
    callbacks were bound to an identifier), the poller wakes up, or the engine
    moves on by itself.  An exception ends the task that raised it and leaves
    the state as it is then.  Events are not restricted to the channels that
    exist: a run may contain more than the engine can do. *)
Inductive dc_event :=
| EvOpen
| EvClosing
| EvClose
| EvMessage (message : pyval)
| EvBufferedAmountLow.

Inductive input :=
| InRequest (request : Request.t)
| InNotification (notification : Notification.t)
| InTrack (t : track)
| InSignalingStateChange
| InIceGatheringStateChange
| InIceConnectionStateChange
| InDataChannel (dataChannelId : option string) (ev : dc_event)
| InPoll (others : list (pc -> pc))
| InEngine (p : pc).

Definition forget {A} (m : M A) : M unit := m ;; ret tt.

Definition handle (i : input) : M unit :=
  match i with
  | InRequest request => forget (processRequest request)
  | InNotification notification => processNotification notification
  | InTrack t => on_track t
  | InSignalingStateChange => on_signalingstatechange
  | InIceGatheringStateChange => on_icegatheringstatechange
  | InIceConnectionStateChange => on_iceconnectionstatechange
  | InDataChannel dataChannelId EvOpen => on_open dataChannelId
  | InDataChannel dataChannelId EvClosing => on_closing dataChannelId
  | InDataChannel dataChannelId EvClose => on_close dataChannelId
  | InDataChannel dataChannelId (EvMessage message) => on_message dataChannelId message
  | InDataChannel dataChannelId EvBufferedAmountLow => on_bufferedamountlow dataChannelId
  | InPoll others => checkDataChannelsBufferedAmount others
  | InEngine p => modify (set_pc p)
  end.

Definition step (i : input) (s : Handler) : Handler := snd (handle i s).

Definition run (inputs : list input) (s : Handler) : Handler :=
  fold_left (fun s i => step i s) inputs s.

(** The [close] notifications sent for an identifier. *)
Definition is_close_of (dataChannelId : option string) (e : effect) : bool :=
  match e with
  | Notify target event _ =>
      bool_decide (target = dataChannelId) && String.eqb event "close"
  | _ => false
  end.

Definition closes_sent (dataChannelId : option string) (s : Handler) : nat :=
  length (List.filter (is_close_of dataChannelId) (trace s)).

(** Whether an input registers a channel under the identifier when it is
    handled in [s]: a [createDataChannel] request for it that the engine
    accepts. *)
Definition registers (dataChannelId : option string) (i : input) (s : Handler) : bool :=
  match i with
  | InRequest request =>
      String.eqb (Request.method request) "handler.createDataChannel"
      && bool_decide (Request.dataChannelId request = dataChannelId)
      && match fst (processRequest request s) with inr _ => true | inl _ => false end
  | _ => false
  end.

(** The registrations of an identifier along a run. *)
Fixpoint registrations (dataChannelId : option string) (inputs : list input)
    (s : Handler) : nat :=
  match inputs with
  | [] => 0%nat
  | i :: inputs' =>
      ((if registers dataChannelId i s then 1 else 0)
       + registrations dataChannelId inputs' (step i s))%nat
  end.

End Handler.

Arguments Notify {E} target event data.
Arguments Log {E} level msg.
Arguments Call {E} c.

(** The [bufferedamount] notifications keyed by an identifier. *)
Definition is_bufferedamount_of {E : Engine} (dataChannelId : option string)
    (e : @effect E) : bool :=
  match e with
  | Notify target event _ =>
      bool_decide (target = dataChannelId) && String.eqb event "bufferedamount"
  | _ => false
  end.

(** The engine state after the first [i] waits of a poller round. *)
Definition engine_after {E : Engine} (others : list (RTCPeerConnection E -> RTCPeerConnection E))
    (i : nat) (p : RTCPeerConnection E) : RTCPeerConnection E :=
  fold_left (fun p f => f p) (take i others) p.

(** Whether an identifier is registered, as a number. *)
Definition present {E : Engine} (dataChannelId : option string) (s : @Handler E) : nat :=
  match dict_get (_dataChannels s) dataChannelId with Some _ => 1 | None => 0 end.

(** A computation that leaves the data-channel registry alone and sends no
    [close] notification for the identifier. *)
Definition quiet {E : Engine} {A} (dataChannelId : option string) (m : @M E A) : Prop :=
  forall s,
    _dataChannels (snd (m s)) = _dataChannels s
    /\ closes_sent dataChannelId (snd (m s)) = closes_sent dataChannelId s.

(** ** The dispatch tables and the statistics contract *)

(** The method names the [if]/[elif] chain of [processRequest] compares
    with, in its order. *)
Definition dispatched_methods : list string :=
  ["handler.getLocalDescription"; "handler.addTrack"; "handler.removeTrack";
   "handler.setLocalDescription"; "handler.setRemoteDescription";
   "handler.createOffer"; "handler.createAnswer"; "handler.getMid";
   "handler.getTransportStats"; "handler.getSenderStats";
   "handler.getReceiverStats"; "handler.createDataChannel"].

(** The event names the chain of [processNotification] compares with. *)
Definition dispatched_events : list string :=
  ["enableTrack"; "disableTrack"; "datachannel.send"; "datachannel.sendBinary";
   "datachannel.close"; "datachannel.setBufferedAmountLowThreshold"].

Definition unknown_request (method : string) : pyexn :=
  TypeError ("unknown request with method '" +:+ method +:+ "' received").

Definition unknown_notification (event : string) : pyexn :=
  TypeError ("unknown notification with event '" +:+ event +:+ "' received").


(** A method name is unsupported when every request that carries it, on
    every engine and in every state, ends in the final [else] of the
    dispatcher and changes nothing; it is dispatched otherwise. *)
Definition unsupported_method (method : string) : Prop :=
  forall (E : Engine) (s : @Handler E) dataChannelId data,
    processRequest (Request.mk method dataChannelId data) s
    = (inl (unknown_request method), s).

Definition dispatched_method (method : string) : Prop :=
  ~ unsupported_method method.

Definition unsupported_event (event : string) : Prop :=
  forall (E : Engine) (s : @Handler E) dataChannelId data,
    processNotification (Notification.mk event dataChannelId data) s
    = (inl (unknown_notification event), s).

(** The field set of each statistics type, in the words of the
    specification, section 4.5. *)
Definition spec_inbound : list string :=
  ["timestamp"; "type"; "id"; "ssrc"; "kind"; "transportId";
   "packetsReceived"; "packetsLost"; "jitter"].

Definition spec_outbound : list string :=
  ["timestamp"; "type"; "id"; "ssrc"; "kind"; "transportId";
   "packetsSent"; "bytesSent"; "trackId"].

Definition spec_remote_inbound : list string :=
  spec_inbound ++ ["roundTripTime"; "fractionLost"].

Definition spec_remote_outbound : list string :=
  List.filter (fun n => negb (String.eqb n "trackId")) spec_outbound ++ ["remoteTimestamp"].

Definition spec_transport : list string :=
  ["timestamp"; "type"; "id"; "packetsSent"; "packetsReceived"; "bytesSent";
   "bytesReceived"; "iceRole"; "dtlsState"].

(** The five recognized types and their field sets. *)
Definition spec_field_set (type : pyval) : option (list string) :=
  match type with
  | PyStr t =>
      if String.eqb t "inbound-rtp" then Some spec_inbound
      else if String.eqb t "outbound-rtp" then Some spec_outbound
      else if String.eqb t "remote-inbound-rtp" then Some spec_remote_inbound
      else if String.eqb t "remote-outbound-rtp" then Some spec_remote_outbound
      else if String.eqb t "transport" then Some spec_transport
      else None
  | _ => None
  end.

(** The two fields that are time stamps. *)
Definition is_stamp (name : string) : bool :=
  String.eqb name "timestamp" || String.eqb name "remoteTimestamp".

(** The value the contract gives a field of an entry: the attribute, a time
    stamp in seconds. *)
Definition spec_field_value (entry : pyval) (name : string) : option pyval :=
  match py_getattr entry name with
  | inr (PyDatetime us) => if is_stamp name then Some (PyFloat us (-6)) else Some (PyDatetime us)
  | inr v => if is_stamp name then None else Some v
  | inl _ => None
  end.

(** An entry as the engine builds it: it has a [type], and when the type is
    one of the five it has every attribute of that type's field set, the
    time stamps being [datetime] values. *)
Definition engine_entry (entry : pyval) : Prop :=
  exists type,
    py_getattr entry "type" = inr type
    /\ forall names, spec_field_set type = Some names ->
       Forall (fun name => is_Some (spec_field_value entry name)) names.

Definition engine_report (stats : list (string * pyval)) : Prop :=
  dict_wf stats /\ Forall (fun kv => engine_entry (snd kv)) stats.

(** The serialized form the contract gives an entry: for an entry of one of
    the five types, the mapping from each name of the type's field set, in
    order, to its value; nothing for any other entry. *)
Fixpoint spec_fields_dict (entry : pyval) (names : list string)
    : option (list (string * pyval)) :=
  match names with
  | [] => Some []
  | name :: names' =>
      match spec_field_value entry name, spec_fields_dict entry names' with
      | Some v, Some d => Some ((name, v) :: d)
      | _, _ => None
      end
  end.

Definition spec_serialized (entry : pyval) : option pyval :=
  match py_getattr entry "type" with
  | inr type =>
      match spec_field_set type with
      | Some names => PyDict <$> spec_fields_dict entry names
      | None => None
      end
  | inl _ => None
  end.

(** A field of a serializer reads a time stamp exactly when the contract
    says the name is one. *)
Definition canonical (f : field) : bool :=
  match f with
  | Attr name => negb (is_stamp name)
  | Stamp name => is_stamp name
  end.

(** The arms of the three chains, against the contract's table: an arm for
    a type is the serializer of that type's field set. *)
Definition arm_agrees (arm : pyval -> option (pyval -> pyexn + pyval)) (type : pyval)
    : Prop :=
  match arm type with
  | Some ser =>
      exists fs, ser = serialize fs /\ forallb canonical fs = true
                 /\ spec_field_set type = Some (map field_name fs)
  | None => True
  end.


(** The serialized form of an entry under one of the chains: the contract's
    form when the chain has an arm for the entry's type, nothing otherwise. *)
Definition arm_serialized (arm : pyval -> option (pyval -> pyexn + pyval))
    (entry : pyval) : option pyval :=
  match py_getattr entry "type" with
  | inr type =>
      match arm type with
      | Some _ => spec_serialized entry
      | None => None
      end
  | inl _ => None
  end.

(** A computation that leaves an observation [f] of the state as it is. *)
Definition keeps {E : Engine} {A X} (f : @Handler E -> X) (m : @M E A) : Prop :=
  forall s, f (snd (m s)) = f s.

(** What a handler sent over the channel or wrote to the log: the trace
    without the engine calls. *)
Definition is_call {E : Engine} (e : @effect E) : bool :=
  match e with Call _ => true | _ => false end.

Definition outbound {E : Engine} (s : @Handler E) : list (@effect E) :=
  List.filter (fun e => negb (is_call e)) (trace s).

(** The ways a step can change the data-channel registry. *)
Definition registry_step {V} (d d' : list (option string * V)) : Prop :=
  d' = d
  \/ (exists k v, d' = dict_set d k v)
  \/ (exists k, d' = dict_del d k).

(** What a serializer does with a statistics object, for the names of its
    dictionary display: when it returns, it returns a mapping with exactly
    these names, in this order, and the object has an attribute for every one
    of them, which is the value under the name unless the name is a time
    stamp (whose value is converted); so an object that lacks one of the
    attributes makes the serializer raise, and no partial mapping comes
    back. *)
Definition all_or_nothing (ser : pyval -> pyexn + pyval) (names : list string)
    (stats : pyval) : Prop :=
  match ser stats with
  | inr v =>
      exists d,
        v = PyDict d
        /\ map fst d = names
        /\ forall name, name ∈ names ->
             exists a, py_getattr stats name = inr a
                       /\ (is_stamp name = false -> (name, a) ∈ d)
  | inl _ => True
  end
  /\ forall name,
       name ∈ names ->
       (forall a, py_getattr stats name <> inr a) ->
       exists e, ser stats = inl e.

(** ** A small engine to run the handler on *)

(** An engine with just enough behaviour to evaluate the handler: tracks
    are their identifiers, a transceiver is its position in the list of
    transceivers, a data channel its position in the list of channels; every
    channel keeps the parameters it was created with, the number of bytes
    queued on it and whether it was closed. *)
Module Demo.

Record channel := mk_channel {
  params : Params.t;
  queued : Z;
  threshold : pyval;
  closed : bool
}.

Record state := mk_state {
  local : pyval;
  mids : list (option string);
  channels : list channel;
  report : list (string * pyval)
}.

Definition empty : state := mk_state PyNone [] [] [].

Definition with_channels (cs : list channel) (p : state) : state :=
  mk_state (local p) (mids p) cs (report p).

Definition channel_at (dc : nat) (p : state) : channel :=
  nth dc (channels p)
    (mk_channel (Params.mk true PyNone PyNone PyNone PyNone PyNone PyNone) 0 PyNone true).

Definition update_channel (dc : nat) (f : channel -> channel) (p : state) : state :=
  with_channels (alter f dc (channels p)) p.

Definition payload_size (data : pyval) : Z :=
  match data with
  | PyStr t => Z.of_nat (String.length t)
  | PyBytes b => Z.of_nat (length b)
  | _ => 0
  end.

Definition description (kwargs : list (string * pyval)) : string + pyval :=
  match dict_get kwargs "sdp", dict_get kwargs "type" with
  | Some sdp, Some type =>
      if (length kwargs =? 2)%nat
      then inr (PyObject "RTCSessionDescription" [("sdp", sdp); ("type", type)])
      else inl "TypeError: unexpected keyword argument"
  | _, _ => inl "TypeError: missing required argument"
  end.

Definition engine : Engine := {|
  RTCPeerConnection := state;
  MediaStreamTrack := string;
  RTCRtpTransceiver := nat;
  RTCDataChannel := nat;
  getTrack playerId kind :=
    match playerId with
    | PyStr player => inr ("track-of-" +:+ player)
    | _ => inl "no such player"
    end;
  track_id t := t;
  track_kind t := "audio";
  new_RTCSessionDescription := description;
  b64decode data := inl "binascii.Error";
  pc_localDescription := local;
  pc_signalingState p := "stable";
  pc_iceGatheringState p := "new";
  pc_iceConnectionState p := "new";
  pc_addTransceiver t p :=
    (inr (length (mids p)),
     mk_state (local p) (mids p ++ [None]) (channels p) (report p));
  pc_getTransceivers p := seq 0 (length (mids p));
  pc_setLocalDescription d p :=
    (inr tt, mk_state d (mids p) (channels p) (report p));
  pc_setRemoteDescription d p := (inr tt, p);
  pc_createOffer p := (inl "no media", p);
  pc_createAnswer p := (inl "no remote description", p);
  pc_getStats p := (inr (report p), p);
  pc_createDataChannel prm p :=
    (inr (length (channels p)),
     with_channels (channels p ++ [mk_channel prm 0 (PyInt 0) false]) p);
  pc_close p := (inr tt, p);
  transceiver_mid t p := nth t (mids p) None;
  transceiver_set_direction t d p := (inr tt, p);
  sender_replaceTrack t new p := (inr tt, p);
  sender_getStats t p := (inr (report p), p);
  receiver_getStats t p := (inr (report p), p);
  dc_id dc p := Params.id (params (channel_at dc p));
  dc_ordered dc p := Params.ordered (params (channel_at dc p));
  dc_maxPacketLifeTime dc p := Params.maxPacketLifeTime (params (channel_at dc p));
  dc_maxRetransmits dc p := Params.maxRetransmits (params (channel_at dc p));
  dc_label dc p := Params.label (params (channel_at dc p));
  dc_protocol dc p := Params.protocol (params (channel_at dc p));
  dc_readyState dc p :=
    PyStr (if closed (channel_at dc p) then "closed" else "open");
  dc_bufferedAmount dc p := PyInt (queued (channel_at dc p));
  dc_bufferedAmountLowThreshold dc p := threshold (channel_at dc p);
  dc_set_bufferedAmountLowThreshold dc v p :=
    (inr tt,
     update_channel dc (fun c => mk_channel (params c) (queued c) v (closed c)) p);
  dc_send dc data p :=
    if closed (channel_at dc p) then (inl "InvalidStateError", p)
    else
      (inr tt,
       update_channel dc
         (fun c => mk_channel (params c) (queued c + payload_size data)
                     (threshold c) (closed c)) p);
  dc_close dc p :=
    (inr tt,
     update_channel dc (fun c => mk_channel (params c) (queued c) (threshold c) true) p)
|}.

(** A fresh handler on this engine. *)
Definition handler : @Handler engine := Handler_init (E:=engine) "handler-1" empty.

(** The options of a [createDataChannel] request. *)
Definition chat_options : pyval :=
  PyDict [("id", PyInt 1); ("ordered", PyBool true); ("maxRetransmits", PyInt 3);
          ("label", PyStr "chat"); ("protocol", PyStr "")].

Definition create_dc1 : Request.t :=
  Request.mk "handler.createDataChannel" (Some "dc1") chat_options.

Definition close_dc1 : Notification.t :=
  Notification.mk "datachannel.close" (Some "dc1") PyNone.

(** The handler after [createDataChannel] for dc1. *)
Definition with_dc1 : @Handler engine :=
  snd (processRequest create_dc1 handler).

(** The handler after [addTrack] for the player alice. *)
Definition with_track : @Handler engine :=
  snd (processRequest
         (Request.mk "handler.addTrack" None
            (PyDict [("playerId", PyStr "alice"); ("kind", PyStr "audio")]))
         handler).

(** An engine state whose report has an inbound entry, a transport entry and
    an entry of a type the handler does not know. *)
Definition inbound_entry : pyval :=
  PyObject "RTCInboundRtpStreamStats"
    [("timestamp", PyDatetime 1700000000000000); ("type", PyStr "inbound-rtp");
     ("id", PyStr "in_1"); ("ssrc", PyInt 1234); ("kind", PyStr "audio");
     ("transportId", PyStr "tr_1"); ("packetsReceived", PyInt 10);
     ("packetsLost", PyInt 0); ("jitter", PyInt 0)].

Definition transport_entry : pyval :=
  PyObject "RTCTransportStats"
    [("timestamp", PyDatetime 1700000000000000); ("type", PyStr "transport");
     ("id", PyStr "tr_1"); ("packetsSent", PyInt 5); ("packetsReceived", PyInt 10);
     ("bytesSent", PyInt 500); ("bytesReceived", PyInt 1000);
     ("iceRole", PyStr "controlling"); ("dtlsState", PyStr "connected")].

Definition codec_entry : pyval :=
  PyObject "RTCCodecStats" [("type", PyStr "codec"); ("id", PyStr "codec_1")].

Definition sample_report : list (string * pyval) :=
  [("in_1", inbound_entry); ("codec_1", codec_entry); ("tr_1", transport_entry)].

Definition with_report : @Handler engine :=
  Handler_init (E:=engine) "handler-1" (mk_state PyNone [] [] sample_report).

End Demo.

(** ** A stricter engine *)

(** The small engine again, with the refusals and answers that the first
    one lacks: creating a channel with both [maxPacketLifeTime] and
    [maxRetransmits] is refused, a transceiver the connection does not know
    cannot change direction, [createOffer] answers with an offer, and the
    base64 decoder knows one text. *)
Module Lab.

Definition offer : pyval :=
  PyObject "RTCSessionDescription" [("sdp", PyStr "v=0"); ("type", PyStr "offer")].

Definition engine : Engine := {|
  RTCPeerConnection := Demo.state;
  MediaStreamTrack := string;
  RTCRtpTransceiver := nat;
  RTCDataChannel := nat;
  getTrack := getTrack Demo.engine;
  track_id := track_id Demo.engine;
  track_kind := track_kind Demo.engine;
  new_RTCSessionDescription := new_RTCSessionDescription Demo.engine;
  b64decode data :=
    match data with
    | PyStr "aGk=" => inr (list_byte_of_string "hi")
    | _ => inl "binascii.Error"
    end;
  pc_localDescription := pc_localDescription Demo.engine;
  pc_signalingState := pc_signalingState Demo.engine;
  pc_iceGatheringState := pc_iceGatheringState Demo.engine;
  pc_iceConnectionState := pc_iceConnectionState Demo.engine;
  pc_addTransceiver := pc_addTransceiver Demo.engine;
  pc_getTransceivers := pc_getTransceivers Demo.engine;
  pc_setLocalDescription := pc_setLocalDescription Demo.engine;
  pc_setRemoteDescription := pc_setRemoteDescription Demo.engine;
  pc_createOffer p := (inr offer, p);
  pc_createAnswer := pc_createAnswer Demo.engine;
  pc_getStats := pc_getStats Demo.engine;
  pc_createDataChannel prm p :=
    if negb (is_None (Params.maxPacketLifeTime prm))
       && negb (is_None (Params.maxRetransmits prm))
    then (inl "ValueError", p)
    else pc_createDataChannel Demo.engine prm p;
  pc_close := pc_close Demo.engine;
  transceiver_mid := transceiver_mid Demo.engine;
  transceiver_set_direction t d p :=
    if (t <? length (Demo.mids p))%nat then (inr tt, p)
    else (inl "InvalidStateError", p);
  sender_replaceTrack := sender_replaceTrack Demo.engine;
  sender_getStats := sender_getStats Demo.engine;
  receiver_getStats := receiver_getStats Demo.engine;
  dc_id := dc_id Demo.engine;
  dc_ordered := dc_ordered Demo.engine;
  dc_maxPacketLifeTime := dc_maxPacketLifeTime Demo.engine;
  dc_maxRetransmits := dc_maxRetransmits Demo.engine;
  dc_label := dc_label Demo.engine;
  dc_protocol := dc_protocol Demo.engine;
  dc_readyState := dc_readyState Demo.engine;
  dc_bufferedAmount := dc_bufferedAmount Demo.engine;
  dc_bufferedAmountLowThreshold := dc_bufferedAmountLowThreshold Demo.engine;
  dc_set_bufferedAmountLowThreshold := dc_set_bufferedAmountLowThreshold Demo.engine;
  dc_send := dc_send Demo.engine;
  dc_close := dc_close Demo.engine
|}.

Definition handler : @Handler engine := Handler_init (E:=engine) "handler-2" Demo.empty.

(** A handler that still holds a transceiver the connection has dropped. *)
Definition stale : @Handler engine :=
  mkHandler (E:=engine) "handler-2" Demo.empty {["t9" := 7%nat]} [] true [].

(** Options that name both reliability limits. *)
Definition both_limits : list (string * pyval) :=
  [("maxPacketLifeTime", PyInt 100); ("maxRetransmits", PyInt 3)].

(** The handler after [createDataChannel] for dc1 and after one track. *)
Definition with_dc1 : @Handler engine :=
  snd (processRequest Demo.create_dc1 handler).

Definition with_track : @Handler engine :=
  snd (processRequest
         (Request.mk "handler.addTrack" None
            (PyDict [("playerId", PyStr "alice"); ("kind", PyStr "audio")]))
         handler).

(** The same, with a report behind the sender and the receiver. *)
Definition with_track_and_report : @Handler engine :=
  set_pc (E:=engine) (Demo.mk_state PyNone [Some "0"] [] Demo.sample_report) with_track.

End Lab.

(** * Facts *)

(** ** Dictionaries *)

Section PyDictFacts.
Context {K V : Type} `{EqDecision K}.
Implicit Types (d : list (K * V)) (k : K) (v : V).

Lemma dict_get_None d k : dict_get d k = None <-> k ∉ dict_keys d.
Proof.
  induction d as [|[k' v] d IH]; simpl.
  - split; [intros _; apply not_elem_of_nil | done].
  - case_decide as Hk; subst.
    + split; [done | intros []; left].
    + rewrite IH. rewrite not_elem_of_cons. naive_solver.
Qed.

Lemma dict_get_Some_elem d k v : dict_get d k = Some v -> (k, v) ∈ d.
Proof.
  induction d as [|[k' v'] d IH]; simpl; [done|].
  case_decide as Hk.
  - intros [= <-]. subst. left.
  - intros H. right. auto.
Qed.

Lemma dict_get_elem d k v : dict_wf d -> (k, v) ∈ d -> dict_get d k = Some v.
Proof.
  unfold dict_wf, dict_keys.
  induction d as [|[k' v'] d IH]; simpl; intros Hwf Hin.
  - by apply elem_of_nil in Hin.
  - apply NoDup_cons in Hwf as [Hk' Hwf].
    apply elem_of_cons in Hin as [[= <- <-]|Hin].
    + by rewrite decide_True.
    + case_decide as Hk; [|auto]. subst.
      exfalso. apply Hk'. apply (list_elem_of_fmap_2 fst) in Hin. done.
Qed.

Lemma dict_keys_del d k : dict_keys (dict_del d k) = filter (λ k', k' ≠ k) (dict_keys d).
Proof.
  induction d as [|[k' v] d IH]; simpl; [done|].
  case_decide as Hk; subst.
  - rewrite filter_cons_False; [done | naive_solver].
  - rewrite filter_cons_True by done. simpl. by rewrite IH.
Qed.

Lemma dict_get_del_eq d k : dict_get (dict_del d k) k = None.
Proof.
  apply dict_get_None. rewrite dict_keys_del.
  intros Hin. apply list_elem_of_filter in Hin. naive_solver.
Qed.

Lemma dict_get_del_ne d k k' : k ≠ k' -> dict_get (dict_del d k) k' = dict_get d k'.
Proof.
  intros Hne. induction d as [|[k0 v] d IH]; simpl; [done|].
  case_decide as Hk; subst; simpl.
  - by rewrite decide_False.
  - case_decide; auto.
Qed.

Lemma dict_del_absent d k : dict_get d k = None -> dict_del d k = d.
Proof.
  induction d as [|[k' v] d IH]; simpl; [done|].
  case_decide as Hk; [done|]. intros H. by rewrite IH.
Qed.

Lemma dict_get_set_eq d k v : dict_get (dict_set d k v) k = Some v.
Proof.
  induction d as [|[k' v'] d IH]; simpl.
  - by rewrite decide_True.
  - case_decide as Hk; simpl; [by rewrite decide_True | by rewrite decide_False].
Qed.

Lemma dict_get_set_ne d k k' v : k ≠ k' -> dict_get (dict_set d k v) k' = dict_get d k'.
Proof.
  intros Hne. induction d as [|[k0 v0] d IH]; simpl.
  - by rewrite decide_False.
  - case_decide as Hk; subst; simpl.
    + by rewrite !decide_False.
    + case_decide; auto.
Qed.

Lemma dict_keys_set d k v :
  dict_keys (dict_set d k v) =
  match dict_get d k with
  | Some _ => dict_keys d
  | None => (dict_keys d ++ [k])%list
  end.
Proof.
  induction d as [|[k' v'] d IH]; simpl; [done|].
  case_decide as Hk; simpl; [done|].
  rewrite IH. by destruct (dict_get d k).
Qed.

Lemma dict_wf_set d k v : dict_wf d -> dict_wf (dict_set d k v).
Proof.
  unfold dict_wf. rewrite dict_keys_set.
  destruct (dict_get d k) eqn:Hg; [done|].
  intros Hwf. apply NoDup_app. split_and!; [done| |apply NoDup_singleton].
  intros x Hx ->%list_elem_of_singleton. by apply dict_get_None in Hg.
Qed.

Lemma dict_wf_del d k : dict_wf d -> dict_wf (dict_del d k).
Proof. unfold dict_wf. rewrite dict_keys_del. apply NoDup_filter. Qed.

End PyDictFacts.

(** ** Base64 *)

Example b64encode_hi :
  ascii_decode (b64encode (list_byte_of_string "hi")) = "aGk=".
Proof. reflexivity. Qed.

Example b64encode_hello :
  ascii_decode (b64encode (list_byte_of_string "hello!")) = "aGVsbG8h".
Proof. reflexivity. Qed.

Example str_of_bytes_b64_hi :
  str_of_bytes (b64encode (list_byte_of_string "hi")) = "b'aGk='".
Proof. reflexivity. Qed.


Lemma b64_char_plain i : plain (b64_char i) = true.
Proof.
  unfold b64_char.
  destruct (nth_in_or_default (Z.to_nat i) b64_alphabet b64_pad) as [Hin | ->];
    [|reflexivity].
  revert Hin. generalize (nth (Z.to_nat i) b64_alphabet b64_pad). intros b.
  assert (forallb plain b64_alphabet = true) as Hall by reflexivity.
  rewrite forallb_forall in Hall. apply Hall.
Qed.

Lemma b64encode_plain bs : forallb plain (b64encode bs) = true.
Proof.
  remember (length bs) as n eqn:Hn. revert bs Hn.
  induction n as [n IH] using lt_wf_ind. intros bs Hn.
  destruct bs as [|a [|b [|c rest]]]; cbn [b64encode forallb];
    rewrite ?b64_char_plain; try reflexivity.
  cbn [andb]. apply (IH (length rest)); [subst n; cbn [length]; lia | done].
Qed.

Lemma repr_byte_plain b : plain b = true -> repr_byte 39 b = [b].
Proof.
  unfold plain, repr_byte. cbv zeta. intros H.
  destruct (Z.eqb_spec (byte_val b) 39), (Z.eqb_spec (byte_val b) 92),
    (Z.leb_spec 32 (byte_val b)), (Z.ltb_spec (byte_val b) 127);
    try discriminate H.
  simpl.
  destruct (Z.eqb_spec (byte_val b) 9); [lia|].
  destruct (Z.eqb_spec (byte_val b) 10); [lia|].
  destruct (Z.eqb_spec (byte_val b) 13); [lia|].
  destruct (Z.ltb_spec (byte_val b) 32); [lia|].
  destruct (Z.leb_spec 127 (byte_val b)); [lia|]. done.
Qed.

Lemma flat_map_repr_plain bs :
  forallb plain bs = true -> flat_map (repr_byte 39) bs = bs.
Proof.
  induction bs as [|b bs IH]; simpl; [done|].
  intros [Hb Hbs]%andb_prop. rewrite (repr_byte_plain _ Hb), IH by done. done.
Qed.

Lemma has_byte_plain bs : forallb plain bs = true -> has_byte 39 bs = false.
Proof.
  induction bs as [|b bs IH]; simpl; [done|].
  intros [Hb Hbs]%andb_prop. rewrite IH by done.
  unfold plain in Hb. cbv zeta in Hb.
  destruct (Z.eqb_spec (byte_val b) 39); [discriminate Hb | done].
Qed.

Lemma string_of_list_byte_app l1 l2 :
  string_of_list_byte (l1 ++ l2) = string_of_list_byte l1 +:+ string_of_list_byte l2.
Proof.
  unfold string_of_list_byte.
  induction l1 as [|b l1 IH]; cbn [map app string_of_list_ascii append];
    [done | by rewrite IH].
Qed.

(** [str] of a [bytes] object of plain characters, base64 output in
    particular: the text between [b'] and ['], not the text. *)
Lemma str_of_bytes_plain bs :
  forallb plain bs = true ->
  str_of_bytes bs = "b'" +:+ ascii_decode bs +:+ "'".
Proof.
  intros H. unfold str_of_bytes, ascii_decode.
  rewrite (has_byte_plain _ H). cbn [andb].
  rewrite (flat_map_repr_plain _ H).
  change (byte_of_Z 98 :: byte_of_Z 39 :: bs ++ [byte_of_Z 39])
    with ([byte_of_Z 98; byte_of_Z 39] ++ bs ++ [byte_of_Z 39]).
  by rewrite !string_of_list_byte_app.
Qed.

Lemma str_of_bytes_b64encode bs :
  str_of_bytes (b64encode bs) = "b'" +:+ ascii_decode (b64encode bs) +:+ "'".
Proof. apply str_of_bytes_plain, b64encode_plain. Qed.

Lemma length_append (s1 s2 : string) :
  String.length (s1 +:+ s2) = (String.length s1 + String.length s2)%nat.
Proof. induction s1 as [|c s1 IH]; simpl; [done | by rewrite IH]. Qed.

Lemma quoted_neq (t : string) : "b'" +:+ t +:+ "'" <> t.
Proof.
  intros H. apply (f_equal String.length) in H.
  rewrite !length_append in H. cbn [String.length] in H. lia.
Qed.

(** ** Counting the entries of a key *)

Section PyDictCount.
Context {K V : Type} `{EqDecision K}.
Implicit Types (d : list (K * V)) (k : K) (v : V).

Lemma count_key_absent d k :
  k ∉ dict_keys d -> length (List.filter (has_key k) d) = 0%nat.
Proof.
  induction d as [|[k' v] d IH]; simpl; [done|].
  intros [Hne Hnin]%not_elem_of_cons. unfold has_key at 1. simpl.
  rewrite bool_decide_eq_false_2 by congruence. auto.
Qed.

Lemma count_key_present d k v :
  dict_wf d -> dict_get d k = Some v -> length (List.filter (has_key k) d) = 1%nat.
Proof.
  unfold dict_wf. induction d as [|[k' v'] d IH]; simpl; [done|].
  intros [Hnin Hwf]%NoDup_cons. unfold has_key at 1. simpl.
  case_decide as Hk.
  - intros _. subst k'. rewrite bool_decide_eq_true_2 by done. simpl.
    by rewrite count_key_absent.
  - rewrite bool_decide_eq_false_2 by done. auto.
Qed.

End PyDictCount.

(** * The handler *)

Section HandlerFacts.
Context {E : Engine}.
Implicit Types (s : @Handler E) (dataChannelId : option string).

(** ** Registry accesses *)

Lemma dataChannels_getitem_Some s dataChannelId dc :
  dict_get (_dataChannels s) dataChannelId = Some dc ->
  dataChannels_getitem dataChannelId s = (inr dc, s).
Proof. intros H. unfold dataChannels_getitem. by rewrite H. Qed.

Lemma dataChannels_getitem_None s dataChannelId :
  dict_get (_dataChannels s) dataChannelId = None ->
  dataChannels_getitem dataChannelId s =
    (inl (KeyError (from_option PyStr PyNone dataChannelId)), s).
Proof. intros H. unfold dataChannels_getitem. by rewrite H. Qed.

Lemma dataChannels_delitem_Some s dataChannelId dc :
  dict_get (_dataChannels s) dataChannelId = Some dc ->
  dataChannels_delitem dataChannelId s =
    (inr tt, set_dataChannels (dict_del (_dataChannels s) dataChannelId) s).
Proof.
  intros H. unfold dataChannels_delitem, bind.
  by rewrite (dataChannels_getitem_Some _ _ _ H).
Qed.

Lemma dataChannels_delitem_None s dataChannelId :
  dict_get (_dataChannels s) dataChannelId = None ->
  dataChannels_delitem dataChannelId s =
    (inl (KeyError (from_option PyStr PyNone dataChannelId)), s).
Proof.
  intros H. unfold dataChannels_delitem, bind.
  by rewrite (dataChannels_getitem_None _ _ H).
Qed.

(** ** Closing a data channel *)

(** What [datachannel.close] does when the identifier is registered: the
    entry is deleted, then [close()] is called on the channel, in the state
    where the entry is already gone. *)
Lemma close_present s (id : string) data dc :
  dict_get (_dataChannels s) (Some id) = Some dc ->
  processNotification (Notification.mk "datachannel.close" (Some id) data) s =
    engine (CallClose dc) (dc_close E dc)
      (set_dataChannels (dict_del (_dataChannels s) (Some id)) s).
Proof.
  intros H. unfold processNotification. simpl.
  unfold bind at 1. unfold gets. rewrite H.
  unfold bind, except_KeyError_pass.
  by rewrite (dataChannels_delitem_Some _ _ _ H).
Qed.

Lemma close_absent s (id : string) data :
  dict_get (_dataChannels s) (Some id) = None ->
  processNotification (Notification.mk "datachannel.close" (Some id) data) s = (inr tt, s).
Proof.
  intros H. unfold processNotification. simpl.
  unfold bind, gets. by rewrite H.
Qed.

Lemma engine_dataChannels {A} c (op : engine_op (RTCPeerConnection E) A) s :
  _dataChannels (snd (engine c op s)) = _dataChannels s.
Proof. unfold engine. by destruct (op (_pc s)). Qed.

(** After [datachannel.close], whatever the engine answered, the
    identifier is not registered. *)
Lemma close_unregisters s (id : string) data :
  dict_get
    (_dataChannels
       (snd (processNotification (Notification.mk "datachannel.close" (Some id) data) s)))
    (Some id) = None.
Proof.
  destruct (dict_get (_dataChannels s) (Some id)) as [dc|] eqn:H.
  - rewrite (close_present _ _ _ _ H), engine_dataChannels. simpl.
    apply dict_get_del_eq.
  - by rewrite (close_absent _ _ _ H).
Qed.

(** C1. A [datachannel.close] notification for an identifier that is not in
    the data-channel registry returns silently: no exception, and the whole
    state, registry and trace of notifications included, is as before; this
    covers a second [datachannel.close] after a first one.  For an identifier
    that is registered, the handler deletes the registry entry and then calls
    [close()] on the channel: the outcome is that of the engine call made in
    the state without the entry, so the entry is gone even when the call
    raises. *)
Theorem datachannel_close_idempotent s (id : string) data :
  let close_id := Notification.mk "datachannel.close" (Some id) data in
  (dict_get (_dataChannels s) (Some id) = None ->
   processNotification close_id s = (inr tt, s))
  /\ (let s1 := snd (processNotification close_id s) in
      processNotification close_id s1 = (inr tt, s1))
  /\ (forall dc, dict_get (_dataChannels s) (Some id) = Some dc ->
      let removed := set_dataChannels (dict_del (_dataChannels s) (Some id)) s in
      let answer := dc_close E dc (_pc s) in
      dict_get (_dataChannels removed) (Some id) = None
      /\ processNotification close_id s =
           (wrap (fst answer),
            set_pc (snd answer) (add_trace (Call (CallClose dc)) removed))).
Proof.
  simpl. split_and!.
  - apply close_absent.
  - apply close_absent, close_unregisters.
  - intros dc H. split; [apply dict_get_del_eq|].
    rewrite (close_present _ _ _ _ H). unfold engine. simpl.
    by destruct (dc_close E dc (_pc s)).
Qed.

(** ** Lookups by track identifier *)

Lemma transceivers_getitem_miss s (trackId : string) :
  _transceivers s !! trackId = None ->
  transceivers_getitem (PyStr trackId) s = (inl (KeyError (PyStr trackId)), s).
Proof. intros H. unfold transceivers_getitem. by rewrite H. Qed.

(** C3. For a track identifier that is not in the transceiver registry,
    [handler.removeTrack] and [handler.getMid] raise the registry's
    [KeyError], the lookup miss the specification calls NotFound, and leave
    the state, the transceiver registry included, as it was. *)
Theorem removeTrack_getMid_NotFound s (trackId : string) (method : string)
    dataChannelId data :
  method = "handler.removeTrack" \/ method = "handler.getMid" ->
  py_get data "trackId" = inr (PyStr trackId) ->
  _transceivers s !! trackId = None ->
  exists e,
    processRequest (Request.mk method dataChannelId data) s = (inl e, s)
    /\ e = KeyError (PyStr trackId)
    /\ spec_error_kind e = Some NotFound
    /\ _transceivers (snd (processRequest (Request.mk method dataChannelId data) s))
       = _transceivers s.
Proof.
  intros Hm Hget Hmiss. exists (KeyError (PyStr trackId)).
  assert (processRequest (Request.mk method dataChannelId data) s
          = (inl (KeyError (PyStr trackId)), s)) as Heq.
  { destruct Hm as [-> | ->]; unfold processRequest; simpl;
      unfold bind at 1; unfold lift; rewrite Hget; simpl;
      unfold bind at 1; by rewrite (transceivers_getitem_miss _ _ Hmiss). }
  by rewrite Heq.
Qed.

(** ** Statistics of a sender or receiver by mid *)

Lemma find_none_Forall {A} (f : A -> bool) (l : list A) :
  Forall (fun x => f x = false) l -> find f l = None.
Proof. induction 1 as [|x l Hx _ IH]; simpl; [done | by rewrite Hx]. Qed.

Lemma _getTransceiverByMid_miss s (mid : string) :
  Forall (fun x => transceiver_mid E x (_pc s) <> Some mid)
    (pc_getTransceivers E (_pc s)) ->
  _getTransceiverByMid (PyStr mid) s = (inr None, s).
Proof.
  intros H. unfold _getTransceiverByMid, gets. f_equal. f_equal.
  apply find_none_Forall. eapply Forall_impl; [exact H|].
  intros x Hx. simpl in Hx. unfold mid_matches.
  destruct (transceiver_mid E x (_pc s)) as [m|]; [|done]. simpl.
  destruct (String.eqb_spec mid m) as [->|]; [by destruct Hx | done].
Qed.

(** C4. For a mid that no live transceiver has, [handler.getSenderStats] and
    [handler.getReceiverStats] do fail, but with the [AttributeError] of
    reading [sender] (or [receiver]) from the [None] that
    [_getTransceiverByMid] returned: the handler does not check the result
    of the lookup, and the error is not the lookup miss the specification
    calls NotFound. *)
Theorem stats_by_unknown_mid_AttributeError s (mid : string) dataChannelId data :
  py_get data "mid" = inr (PyStr mid) ->
  Forall (fun x => transceiver_mid E x (_pc s) <> Some mid)
    (pc_getTransceivers E (_pc s)) ->
  processRequest (Request.mk "handler.getSenderStats" dataChannelId data) s
    = (inl (AttributeError "'NoneType' object has no attribute 'sender'"), s)
  /\ processRequest (Request.mk "handler.getReceiverStats" dataChannelId data) s
    = (inl (AttributeError "'NoneType' object has no attribute 'receiver'"), s)
  /\ spec_error_kind (AttributeError "'NoneType' object has no attribute 'sender'")
     <> Some NotFound
  /\ spec_error_kind (AttributeError "'NoneType' object has no attribute 'receiver'")
     <> Some NotFound.
Proof.
  intros Hget Hmiss. split_and!; [| |done|done].
  - unfold processRequest. simpl. unfold bind at 1. unfold lift. rewrite Hget. simpl.
    unfold bind. by rewrite (_getTransceiverByMid_miss _ _ Hmiss).
  - unfold processRequest. simpl. unfold bind at 1. unfold lift. rewrite Hget. simpl.
    unfold bind. by rewrite (_getTransceiverByMid_miss _ _ Hmiss).
Qed.

(** ** Unknown methods and events *)

Lemma not_dispatched_eqb (name lit : string) (l : list string) :
  name ∉ l -> lit ∈ l -> String.eqb name lit = false.
Proof.
  intros Hn Hl. destruct (String.eqb_spec name lit) as [->|]; [by destruct Hn | done].
Qed.

Ltac in_table := repeat first [apply list_elem_of_here | apply list_elem_of_further].

Lemma unsupported_method_intro (method : string) :
  method ∉ dispatched_methods -> unsupported_method method.
Proof.
  intros H E' s dataChannelId data. unfold processRequest. simpl.
  rewrite !(not_dispatched_eqb method _ dispatched_methods H) by in_table.
  done.
Qed.

Lemma unsupported_event_intro (event : string) :
  event ∉ dispatched_events -> unsupported_event event.
Proof.
  intros H E' s dataChannelId data. unfold processNotification. simpl.
  rewrite !(not_dispatched_eqb event _ dispatched_events H) by in_table.
  done.
Qed.

Lemma unknown_request_kind method :
  spec_error_kind (unknown_request method) = Some UnsupportedOperation.
Proof. reflexivity. Qed.

Lemma unknown_notification_kind event :
  spec_error_kind (unknown_notification event) = Some UnsupportedOperation.
Proof. reflexivity. Qed.

(** ** Messages received on a data channel *)

(** C8. A [str] message goes out as a [message] notification with the text
    unchanged.  A [bytes] message goes out as a [binary] notification, but its
    payload is [str()] of the base64 [bytes] object, that is the base64 text
    wrapped in [b'] and ['], and never the base64 text itself. *)
Theorem on_message_payload s dataChannelId :
  (forall text : string,
     on_message dataChannelId (PyStr text) s
     = (inr tt, add_trace (Notify dataChannelId "message" (PyStr text)) s))
  /\ (forall b : list Byte.byte,
        let base64_text := ascii_decode (b64encode b) in
        on_message dataChannelId (PyBytes b) s
        = (inr tt,
           add_trace
             (Notify dataChannelId "binary" (PyStr ("b'" +:+ base64_text +:+ "'"))) s)
        /\ PyStr ("b'" +:+ base64_text +:+ "'") <> PyStr base64_text).
Proof.
  split.
  - intros text. reflexivity.
  - intros b. simpl. split.
    + unfold on_message, bind. simpl. unfold notify, modify.
      by rewrite str_of_bytes_b64encode.
    + intros [= H]. by apply quoted_neq in H.
Qed.

(** ** Creating a data channel *)

(** The keyword arguments [createDataChannel] is called with for the request
    data [data]. *)
Lemma createDataChannel_call s dataChannelId kvs :
  let opt k := default PyNone (dict_get kvs k) in
  let params :=
    Params.mk true (opt "id") (opt "ordered") (opt "maxPacketLifeTime")
      (opt "maxRetransmits") (opt "label") (opt "protocol") in
  forall dc p,
  pc_createDataChannel E params (_pc s) = (inr dc, p) ->
  processRequest (Request.mk "handler.createDataChannel" dataChannelId (PyDict kvs)) s
  = (inr (PyDict
       [("streamId", dc_id E dc p);
        ("ordered", dc_ordered E dc p);
        ("maxPacketLifeTime", dc_maxPacketLifeTime E dc p);
        ("maxRetransmits", dc_maxRetransmits E dc p);
        ("label", dc_label E dc p);
        ("protocol", dc_protocol E dc p);
        ("readyState", dc_readyState E dc p);
        ("bufferedAmount", dc_bufferedAmount E dc p);
        ("bufferedAmountLowThreshold", dc_bufferedAmountLowThreshold E dc p)]),
     set_dataChannels (dict_set (_dataChannels s) dataChannelId dc)
       (set_pc p (add_trace (Call (CallCreateDataChannel params)) s))).
Proof.
  intros opt params dc p Hcreate.
  subst opt params. unfold processRequest. simpl in *.
  unfold bind, lift, engine. simpl. rewrite Hcreate. reflexivity.
Qed.

(** C9. When the engine accepts a [handler.createDataChannel] request and
    the new channel reports the option values it was given, the [ordered],
    [maxPacketLifeTime], [maxRetransmits], [label] and [protocol] fields of the
    returned descriptor are the values of the request data ([None] for an
    option the request leaves out); and the one call made to the engine asks
    for a negotiated channel. *)
Theorem createDataChannel_roundtrip s dataChannelId kvs dc p :
  let opt k := default PyNone (dict_get kvs k) in
  let params :=
    Params.mk true (opt "id") (opt "ordered") (opt "maxPacketLifeTime")
      (opt "maxRetransmits") (opt "label") (opt "protocol") in
  let request := Request.mk "handler.createDataChannel" dataChannelId (PyDict kvs) in
  pc_createDataChannel E params (_pc s) = (inr dc, p) ->
  dc_ordered E dc p = Params.ordered params ->
  dc_maxPacketLifeTime E dc p = Params.maxPacketLifeTime params ->
  dc_maxRetransmits E dc p = Params.maxRetransmits params ->
  dc_label E dc p = Params.label params ->
  dc_protocol E dc p = Params.protocol params ->
  exists descriptor,
    fst (processRequest request s) = inr (PyDict descriptor)
    /\ dict_get descriptor "ordered" = Some (opt "ordered")
    /\ dict_get descriptor "maxPacketLifeTime" = Some (opt "maxPacketLifeTime")
    /\ dict_get descriptor "maxRetransmits" = Some (opt "maxRetransmits")
    /\ dict_get descriptor "label" = Some (opt "label")
    /\ dict_get descriptor "protocol" = Some (opt "protocol")
    /\ exists call_params,
         trace (snd (processRequest request s))
         = trace s ++ [Call (CallCreateDataChannel call_params)]
         /\ Params.negotiated call_params = true
         /\ dict_get (_dataChannels (snd (processRequest request s))) dataChannelId
            = Some dc.
Proof.
  intros opt params request Hcreate Ho Hl Hr Hlab Hp.
  unfold request.
  rewrite (createDataChannel_call s dataChannelId kvs dc p Hcreate).
  eexists. split; [reflexivity|]. simpl in *.
  rewrite Ho, Hl, Hr, Hlab, Hp.
  split_and!; try reflexivity.
  exists params. split_and!; [reflexivity | reflexivity | apply dict_get_set_eq].
Qed.

(** ** Setting a description *)

(** ** Setting a description *)







(** ** The buffered-amount poller *)

Lemma engine_after_S others (i : nat) (p : RTCPeerConnection E) :
  engine_after others (S i) p = engine_after (tl others) i (hd (fun p => p) others p).
Proof. unfold engine_after. destruct others as [|f others]; simpl; [|done]. by destruct i. Qed.

Lemma poller_items_cons id dc items others s :
  poller_items ((id, dc) :: items) others s
  = poller_items items (tl others)
      (set_pc (hd (fun p => p) others (_pc s))
         (add_trace (Notify id "bufferedamount" (dc_bufferedAmount E dc (_pc s))) s)).
Proof. reflexivity. Qed.

(** The loop over the items: it cannot raise, leaves the registries alone
    and appends one notification per item, in the order of the items. *)
Lemma poller_items_spec items others s :
  exists emitted,
    fst (poller_items items others s) = inr tt
    /\ _dataChannels (snd (poller_items items others s)) = _dataChannels s
    /\ trace (snd (poller_items items others s)) = trace s ++ emitted
    /\ length emitted = length items
    /\ (forall (i : nat) id dc,
          items !! i = Some (id, dc) ->
          emitted !! i =
            Some (Notify id "bufferedamount"
                    (dc_bufferedAmount E dc (engine_after others i (_pc s)))))
    /\ (forall id,
          length (List.filter (is_bufferedamount_of id) emitted)
          = length (List.filter (has_key id) items)).
Proof.
  revert others s. induction items as [|[id0 dc0] items IH]; intros others s.
  - exists []. simpl. rewrite app_nil_r. split_and!; try done.
  - rewrite poller_items_cons.
    set (e0 := Notify id0 "bufferedamount" (dc_bufferedAmount E dc0 (_pc s))).
    set (s1 := set_pc (hd (fun p => p) others (_pc s)) (add_trace e0 s)).
    destruct (IH (tl others) s1) as (emitted & Hr & Hd & Ht & Hl & Hpos & Hcount).
    exists (e0 :: emitted). split_and!.
    + exact Hr.
    + by rewrite Hd.
    + rewrite Ht. simpl. by rewrite <- app_assoc.
    + simpl. by rewrite Hl.
    + intros [|i] id dc Hi.
      * simpl in Hi. by injection Hi as -> ->.
      * simpl in Hi. simpl. rewrite (Hpos i id dc Hi). by rewrite engine_after_S.
    + intros id. simpl. unfold has_key at 1. simpl.
      case_bool_decide; simpl; by rewrite Hcount.
Qed.

(** C5. One round of the poller over a registry of N channels that no other
    task changes meanwhile: the round does not raise, leaves the registry as
    it is, and sends exactly N notifications, all of them [bufferedamount],
    the i-th keyed by the i-th registered identifier and carrying the buffered
    amount that channel has when its turn comes; each registered identifier
    gets exactly one, an identifier that is not registered gets none. *)
Theorem poller_one_notification_per_channel s others :
  dict_wf (_dataChannels s) ->
  let round := checkDataChannelsBufferedAmount others s in
  exists emitted,
    fst round = inr tt
    /\ _dataChannels (snd round) = _dataChannels s
    /\ trace (snd round) = trace s ++ emitted
    /\ length emitted = length (_dataChannels s)
    /\ (forall (i : nat) id dc,
          _dataChannels s !! i = Some (id, dc) ->
          emitted !! i =
            Some (Notify id "bufferedamount"
                    (dc_bufferedAmount E dc (engine_after others i (_pc s)))))
    /\ (forall id,
          length (List.filter (is_bufferedamount_of id) emitted)
          = match dict_get (_dataChannels s) id with Some _ => 1 | None => 0 end)%nat.
Proof.
  intros Hwf round.
  destruct (poller_items_spec (_dataChannels s) others s)
    as (emitted & Hr & Hd & Ht & Hl & Hpos & Hcount).
  exists emitted. unfold round, checkDataChannelsBufferedAmount, bind, gets. simpl.
  split_and!; try done.
  intros id. rewrite Hcount.
  destruct (dict_get (_dataChannels s) id) as [dc|] eqn:Hg.
  - by apply (count_key_present _ _ dc).
  - apply count_key_absent. by apply dict_get_None.
Qed.

(** ** The statistics serializers *)

Lemma read_field_spec entry f v :
  canonical f = true ->
  spec_field_value entry (field_name f) = Some v ->
  read_field entry f = inr v.
Proof.
  unfold spec_field_value. destruct f as [name|name]; simpl; intros Hc.
  - apply negb_true_iff in Hc. rewrite Hc.
    destruct (py_getattr entry name) as [e|w]; [done|].
    destruct w; by intros [= <-].
  - rewrite Hc. destruct (py_getattr entry name) as [e|w]; [done|].
    destruct w; try done. by intros [= <-].
Qed.

Lemma read_fields_spec entry fs d :
  forallb canonical fs = true ->
  spec_fields_dict entry (map field_name fs) = Some d ->
  read_fields entry fs = inr d.
Proof.
  revert d. induction fs as [|f fs IH]; simpl; intros d Hc.
  - by intros [= <-].
  - apply andb_prop in Hc as [Hf Hfs].
    destruct (spec_field_value entry (field_name f)) as [v|] eqn:Hv; [|done].
    destruct (spec_fields_dict entry (map field_name fs)) as [d'|] eqn:Hd; [|done].
    intros [= <-]. rewrite (read_field_spec _ _ _ Hf Hv), (IH d' Hfs eq_refl). done.
Qed.

Lemma spec_fields_dict_total entry names :
  Forall (fun name => is_Some (spec_field_value entry name)) names ->
  exists d, spec_fields_dict entry names = Some d /\ map fst d = names.
Proof.
  induction 1 as [|name names [v Hv] _ [d [Hd Hn]]]; simpl.
  - by exists [].
  - rewrite Hv, Hd. exists ((name, v) :: d). simpl. by rewrite Hn.
Qed.

Lemma transport_stats_arm_agrees type : arm_agrees transport_stats_arm type.
Proof.
  unfold arm_agrees, transport_stats_arm, spec_field_set, py_eq_str.
  destruct type as [| | | |t| | | | |]; try exact I.
  repeat (destruct (String.eqb t _);
          [eexists; split_and!; [reflexivity | reflexivity | reflexivity] |]).
  exact I.
Qed.

Lemma transport_stats_arm_total type :
  transport_stats_arm type = None -> spec_field_set type = None.
Proof.
  unfold transport_stats_arm, spec_field_set, py_eq_str.
  destruct type as [| | | |t| | | | |]; try reflexivity.
  repeat (destruct (String.eqb t _); [discriminate|]). reflexivity.
Qed.

(** On an entry the engine built, the transport chain computes the
    contract's serialized form. *)
Lemma transport_entry_spec entry type :
  engine_entry entry ->
  py_getattr entry "type" = inr type ->
  match transport_stats_arm type with
  | Some ser => exists v, ser entry = inr v /\ spec_serialized entry = Some v
  | None => spec_serialized entry = None
  end.
Proof.
  intros (type' & Ht & Hfields) Htype.
  assert (type' = type) as -> by congruence.
  pose proof (transport_stats_arm_agrees type) as Hagree. unfold arm_agrees in Hagree.
  unfold spec_serialized. rewrite Htype.
  destruct (transport_stats_arm type) as [ser|] eqn:Harm.
  - destruct Hagree as (fs & -> & Hc & Hset). rewrite Hset.
    destruct (spec_fields_dict_total entry _ (Hfields _ Hset)) as (d & Hd & _).
    exists (PyDict d). rewrite Hd. split; [|done].
    unfold serialize. by rewrite (read_fields_spec _ _ _ Hc Hd).
  - by rewrite (transport_stats_arm_total _ Harm).
Qed.

Lemma stats_loop_transport stats keys r :
  Forall (fun key => exists entry,
            dict_get stats key = Some entry /\ engine_entry entry) keys ->
  dict_wf r ->
  exists result,
    stats_loop transport_stats_arm stats keys r = inr result
    /\ dict_wf result
    /\ forall key,
         dict_get result key =
           if decide (key ∈ keys)
           then match dict_get stats key ≫= spec_serialized with
                | Some v => Some v
                | None => dict_get r key
                end
           else dict_get r key.
Proof.
  intros Hkeys. revert r.
  induction Hkeys as [|k keys (entry & Hk & Hentry) _ IH]; intros r Hwf.
  - exists r. split_and!; [done|done|]. intros key.
    by rewrite decide_False by apply not_elem_of_nil.
  - simpl. rewrite Hk.
    destruct Hentry as (type & Htype & Hfields) eqn:Heq. rewrite Htype.
    pose proof (transport_entry_spec entry type
      (ex_intro _ type (conj Htype Hfields)) Htype) as Hspec.
    clear Heq.
    destruct (transport_stats_arm type) as [ser|].
    + destruct Hspec as (v & -> & Hv).
      destruct (IH (dict_set r k v) (dict_wf_set _ _ _ Hwf)) as (result & -> & Hwf' & Hget).
      exists result. split_and!; [done|done|]. intros key. rewrite Hget.
      destruct (decide (key = k)) as [->|Hne].
      * rewrite (decide_True (P := k ∈ k :: keys)) by left.
        rewrite Hk. simpl. rewrite Hv. rewrite dict_get_set_eq.
        by destruct (decide (k ∈ keys)).
      * rewrite (dict_get_set_ne _ _ _ _ (not_eq_sym Hne)).
        destruct (decide (key ∈ keys)) as [Hin|Hnin].
        -- by rewrite decide_True by (by right).
        -- rewrite decide_False; [done|].
           intros [?|?]%elem_of_cons; done.
    + destruct (IH r Hwf) as (result & -> & Hwf' & Hget).
      exists result. split_and!; [done|done|]. intros key. rewrite Hget.
      destruct (decide (key = k)) as [->|Hne].
      * rewrite (decide_True (P := k ∈ k :: keys)) by left.
        rewrite Hk. simpl. rewrite Hspec.
        by destruct (decide (k ∈ keys)).
      * destruct (decide (key ∈ keys)) as [Hin|Hnin].
        -- by rewrite decide_True by (by right).
        -- rewrite decide_False; [done|].
           intros [?|?]%elem_of_cons; done.
Qed.

Lemma engine_report_keys stats :
  engine_report stats ->
  Forall (fun key => exists entry,
            dict_get stats key = Some entry /\ engine_entry entry) (dict_keys stats).
Proof.
  intros [Hwf Hall]. apply Forall_forall. intros key Hkey.
  apply list_elem_of_fmap in Hkey as ([k entry] & -> & Hin).
  exists entry. split; [by apply dict_get_elem|].
  rewrite Forall_forall in Hall. apply (Hall _ Hin).
Qed.

(** C6. For a report of entries as the engine builds them, the result of
    [handler.getTransportStats] is a mapping that holds, under its key, the
    contract's serialized form of every entry whose type is inbound-rtp,
    outbound-rtp, remote-inbound-rtp, remote-outbound-rtp or transport, with
    exactly the field set of that type, and nothing else: an entry of any
    other type is left out, and the request does not fail. *)
Theorem getTransportStats_recognized_types s dataChannelId data stats p :
  pc_getStats E (_pc s) = (inr stats, p) ->
  engine_report stats ->
  exists result,
    fst (processRequest (Request.mk "handler.getTransportStats" dataChannelId data) s)
    = inr (PyDict result)
    /\ dict_wf result
    /\ (forall key, dict_get result key = dict_get stats key ≫= spec_serialized)
    /\ (forall key entry type,
          dict_get stats key = Some entry ->
          py_getattr entry "type" = inr type ->
          match spec_field_set type with
          | Some names =>
              exists d, dict_get result key = Some (PyDict d)
                        /\ map fst d = names
                        /\ Forall (fun kv => spec_field_value entry kv.1 = Some kv.2) d
          | None => dict_get result key = None
          end).
Proof.
  intros Hstats Hreport.
  destruct (stats_loop_transport stats (dict_keys stats) []
              (engine_report_keys _ Hreport) (NoDup_nil_2))
    as (result & Hloop & Hwf & Hget).
  assert (forall key, dict_get result key = dict_get stats key ≫= spec_serialized)
    as Hget'.
  { intros key. rewrite Hget. destruct (decide (key ∈ dict_keys stats)) as [Hin|Hnin].
    - by destruct (dict_get stats key ≫= spec_serialized).
    - apply dict_get_None in Hnin. by rewrite Hnin. }
  exists result. split_and!; [|done|done|].
  - unfold processRequest. simpl. unfold bind, engine, lift. rewrite Hstats. simpl.
    unfold serialize_report. by rewrite Hloop.
  - intros key entry type Hkey Htype. rewrite Hget', Hkey. simpl.
    unfold spec_serialized. rewrite Htype.
    destruct (spec_field_set type) as [names|] eqn:Hset; [|done].
    destruct Hreport as [Hdwf Hall]. rewrite Forall_forall in Hall.
    destruct (Hall _ (dict_get_Some_elem _ _ _ Hkey)) as (type' & Ht' & Hfields).
    simpl in Ht'. assert (type' = type) as -> by congruence.
    destruct (spec_fields_dict_total entry names (Hfields _ Hset)) as (d & Hd & Hn).
    exists d. rewrite Hd. split_and!; [done|done|].
    clear -Hd. revert d Hd. induction names as [|name names IH]; simpl; intros d.
    + intros [= <-]. constructor.
    + destruct (spec_field_value entry name) as [v|] eqn:Hv; [|done].
      destruct (spec_fields_dict entry names) as [d'|]; [|done].
      intros [= <-]. constructor; [done | by apply IH].
Qed.

(** ** Close notifications along a run *)

Section Quiet.
Context (id : option string).

Lemma quiet_ret {A} (a : A) : quiet (E:=E) id (ret a).
Proof. by intros s. Qed.

Lemma quiet_raise {A} e : quiet (E:=E) (A:=A) id (raise e).
Proof. by intros s. Qed.

Lemma quiet_lift {A} (r : pyexn + A) : quiet (E:=E) id (lift r).
Proof. by intros s. Qed.

Lemma quiet_gets {A} (f : @Handler E -> A) : quiet id (gets f).
Proof. by intros s. Qed.

Lemma quiet_bind {A B} (m : @M E A) (k : A -> @M E B) :
  quiet id m -> (forall a, quiet id (k a)) -> quiet id (bind m k).
Proof.
  intros Hm Hk s. unfold bind. destruct (Hm s) as [Hd Hc].
  destruct (m s) as [[e|a] s1]; simpl in *; [done|].
  destruct (Hk a s1) as [Hd' Hc']. split; congruence.
Qed.

Lemma closes_sent_add_trace (e : @effect E) s :
  closes_sent id (add_trace e s)
  = (closes_sent id s + if is_close_of id e then 1 else 0)%nat.
Proof.
  unfold closes_sent, add_trace. simpl. rewrite List.filter_app, length_app. simpl.
  by destruct (is_close_of id e).
Qed.

Lemma quiet_add_trace (e : @effect E) :
  is_close_of id e = false -> quiet id (modify (add_trace e)).
Proof.
  intros He s. simpl. split; [done|]. rewrite closes_sent_add_trace, He. lia.
Qed.

Lemma quiet_engine {A} c (op : engine_op (RTCPeerConnection E) A) :
  quiet id (engine c op).
Proof.
  intros s. unfold engine. destruct (op (_pc s)) as [r p]. simpl. split; [done|].
  change (closes_sent id (add_trace (Call c) s) = closes_sent id s).
  rewrite closes_sent_add_trace. simpl. lia.
Qed.

Lemma quiet_library {A} c (r : string + A) : quiet (E:=E) id (library c r).
Proof.
  intros s. unfold library. simpl. split; [done|].
  rewrite closes_sent_add_trace. simpl. lia.
Qed.

Lemma quiet_Logger level msg : quiet (E:=E) id (Logger level msg).
Proof. by apply quiet_add_trace. Qed.

Lemma quiet_notify target event data :
  String.eqb event "close" = false -> quiet (E:=E) id (notify target event data).
Proof. intros H. apply quiet_add_trace. simpl. rewrite H. apply andb_false_r. Qed.

Lemma quiet_modify (f : @Handler E -> @Handler E) :
  (forall s, _dataChannels (f s) = _dataChannels s /\ trace (f s) = trace s) ->
  quiet id (modify f).
Proof.
  intros H s. destruct (H s) as [Hd Ht]. simpl. split; [done|].
  unfold closes_sent. by rewrite Ht.
Qed.

Lemma quiet_transceivers_getitem key : quiet (E:=E) id (transceivers_getitem key).
Proof.
  intros s. unfold transceivers_getitem.
  destruct key; try destruct (_transceivers s !! _); simpl; done.
Qed.

Lemma quiet_dataChannels_getitem k : quiet (E:=E) id (dataChannels_getitem k).
Proof.
  intros s. unfold dataChannels_getitem.
  by destruct (dict_get (_dataChannels s) k).
Qed.

End Quiet.

Ltac quiet_step :=
  first
    [ apply quiet_ret | apply quiet_raise | apply quiet_lift | apply quiet_gets
    | apply quiet_engine | apply quiet_library | apply quiet_Logger
    | apply quiet_transceivers_getitem | apply quiet_dataChannels_getitem
    | apply quiet_notify; reflexivity
    | apply quiet_modify; intros ?; split; reflexivity
    | apply quiet_bind; [|intros ?]
    | match goal with
      | |- quiet _ (if ?b then _ else _) => destruct b
      | |- quiet _ (match ?x with _ => _ end) => destruct x
      end ].

Ltac quiet_auto := repeat quiet_step.

Lemma quiet_poller_items id items others : quiet (E:=E) id (poller_items items others).
Proof.
  revert others. induction items as [|[k dc] items IH]; intros others; simpl.
  - apply quiet_ret.
  - quiet_auto. apply IH.
Qed.

(** Every request but [createDataChannel] leaves the data-channel registry
    alone and sends no [close]. *)
Lemma quiet_processRequest id request :
  Request.method request <> "handler.createDataChannel" ->
  quiet (E:=E) id (processRequest request).
Proof.
  intros Hm. unfold processRequest, description_dict, new_description,
    transceivers_delitem, _getTransceiverByMid.
  destruct request as [method dcid data]. simpl in *.
  rewrite (proj2 (String.eqb_neq _ _) Hm).
  repeat (destruct (String.eqb method _); [quiet_auto|]).
  quiet_auto.
Qed.

(** What [createDataChannel] does to the registry. *)
Lemma createDataChannel_registry id request s :
  Request.method request = "handler.createDataChannel" ->
  let r := processRequest request s in
  closes_sent id (snd r) = closes_sent id s
  /\ match fst r with
     | inl _ => _dataChannels (snd r) = _dataChannels s
     | inr _ => exists dc, _dataChannels (snd r)
                           = dict_set (_dataChannels s) (Request.dataChannelId request) dc
     end.
Proof.
  destruct request as [method dcid data]. simpl. intros ->.
  unfold processRequest. simpl.
  destruct data as [| | | | | | |kvs| |]; try (simpl; done).
  unfold bind, lift, engine. simpl.
  match goal with |- context [pc_createDataChannel E ?prm (_pc s)] =>
    destruct (pc_createDataChannel E prm (_pc s)) as [[e|dc] p] end; simpl.
  - split; [|done].
    change (closes_sent id (add_trace (Call (CallCreateDataChannel
      (Params.mk true (default PyNone (dict_get kvs "id"))
         (default PyNone (dict_get kvs "ordered"))
         (default PyNone (dict_get kvs "maxPacketLifeTime"))
         (default PyNone (dict_get kvs "maxRetransmits"))
         (default PyNone (dict_get kvs "label"))
         (default PyNone (dict_get kvs "protocol"))))) s) = closes_sent id s).
    rewrite closes_sent_add_trace. simpl. lia.
  - split; [|by exists dc].
    unfold closes_sent. simpl. rewrite List.filter_app, length_app. simpl. lia.
Qed.

Lemma present_set_eq s k dc :
  present k (set_dataChannels (dict_set (_dataChannels s) k dc) s) = 1%nat.
Proof. unfold present. simpl. by rewrite dict_get_set_eq. Qed.

Lemma present_le_1 k s : (present k s <= 1)%nat.
Proof. unfold present. destruct (dict_get _ _); lia. Qed.

Lemma present_dataChannels k s s' :
  _dataChannels s' = _dataChannels s -> present k s' = present k s.
Proof. unfold present. by intros ->. Qed.

Lemma present_del_le k k' s :
  (present k (set_dataChannels (dict_del (_dataChannels s) k') s) <= present k s)%nat.
Proof.
  unfold present. simpl. destruct (decide (k' = k)) as [->|Hne].
  - rewrite dict_get_del_eq. lia.
  - by rewrite (dict_get_del_ne _ _ _ Hne).
Qed.

(** What [on_close] does: with the identifier registered it deletes the
    entry and sends [close]; otherwise the [KeyError] of the deletion is
    swallowed and nothing happens. *)
Lemma on_close_present s k dc :
  dict_get (_dataChannels s) k = Some dc ->
  on_close k s =
    (inr tt,
     add_trace (Notify k "close" PyNone)
       (set_dataChannels (dict_del (_dataChannels s) k) s)).
Proof.
  intros H. unfold on_close, except_KeyError_pass, bind.
  by rewrite (dataChannels_delitem_Some _ _ _ H).
Qed.

Lemma on_close_absent s k :
  dict_get (_dataChannels s) k = None -> on_close k s = (inr tt, s).
Proof.
  intros H. unfold on_close, except_KeyError_pass, bind.
  by rewrite (dataChannels_delitem_None _ _ H).
Qed.

Lemma processNotification_registry id notification s :
  let s' := snd (processNotification notification s) in
  closes_sent id s' = closes_sent id s /\ (present id s' <= present id s)%nat.
Proof.
  destruct notification as [event dcid data].
  destruct (String.eqb_spec event "datachannel.close") as [->|Hne].
  - destruct dcid as [k|]; [|by simpl].
    destruct (dict_get (_dataChannels s) (Some k)) as [dc|] eqn:Hk.
    + rewrite (close_present _ _ _ _ Hk). cbv zeta. unfold engine.
      destruct (dc_close E dc _) as [r p]. simpl. split.
      * unfold closes_sent. simpl. rewrite List.filter_app, length_app. simpl. lia.
      * apply (present_del_le id (Some k) s).
    + by rewrite (close_absent _ _ _ Hk).
  - assert (quiet (E:=E) id (processNotification (Notification.mk event dcid data)))
      as Hq.
    { unfold processNotification. simpl.
      rewrite (proj2 (String.eqb_neq _ _) Hne).
      repeat (destruct (String.eqb event _); [quiet_auto|]).
      quiet_auto. }
    destruct (Hq s) as [Hd Hc]. cbv zeta. split; [done|].
    by rewrite (present_dataChannels _ _ _ Hd).
Qed.

Lemma quiet_le id {A} (m : @M E A) s :
  quiet id m ->
  (closes_sent id (snd (m s)) + present id (snd (m s))
   <= closes_sent id s + present id s)%nat.
Proof.
  intros Hq. destruct (Hq s) as [Hd Hc]. rewrite Hc, (present_dataChannels _ _ _ Hd). lia.
Qed.

(** One step of a run: the [close] notifications sent for an identifier,
    plus one while it is registered, grow by at most the registrations of the
    step. *)
Lemma step_close_budget id i s :
  (closes_sent id (step i s) + present id (step i s)
   <= closes_sent id s + present id s + if registers id i s then 1 else 0)%nat.
Proof.
  unfold step.
  destruct i as [request|notification|t| | | |k ev|others|p]; cbn [handle registers].
  - (* a request *)
    unfold forget.
    assert (snd (bind (processRequest request) (fun _ => ret tt) s)
            = snd (processRequest request s)) as ->.
    { unfold bind. by destruct (processRequest request s) as [[e|v] s1]. }
    destruct (String.eqb_spec (Request.method request) "handler.createDataChannel")
      as [Hm|Hm]; cbn [andb].
    + destruct (createDataChannel_registry id request s Hm) as [Hc Hreg].
      rewrite Hc.
      destruct (fst (processRequest request s)) as [e|v].
      * rewrite andb_false_r, (present_dataChannels _ _ _ Hreg). lia.
      * destruct Hreg as [dc Hreg]. rewrite andb_true_r.
        case_bool_decide as Hid.
        -- pose proof (present_le_1 id (snd (processRequest request s))). lia.
        -- unfold present. rewrite Hreg, (dict_get_set_ne _ _ _ _ Hid). lia.
    + pose proof (quiet_le id _ s (quiet_processRequest id request Hm)). lia.
  - destruct (processNotification_registry id notification s) as [Hc Hp]. lia.
  - pose proof (quiet_le id (on_track t) s ltac:(unfold on_track; quiet_auto)). lia.
  - pose proof (quiet_le id on_signalingstatechange s
      ltac:(unfold on_signalingstatechange; quiet_auto)). lia.
  - pose proof (quiet_le id on_icegatheringstatechange s
      ltac:(unfold on_icegatheringstatechange; quiet_auto)). lia.
  - pose proof (quiet_le id on_iceconnectionstatechange s
      ltac:(unfold on_iceconnectionstatechange; quiet_auto)). lia.
  - destruct ev as [| | |message|]; cbn [handle].
    + pose proof (quiet_le id (on_open k) s ltac:(unfold on_open; quiet_auto)). lia.
    + pose proof (quiet_le id (on_closing k) s ltac:(unfold on_closing; quiet_auto)). lia.
    + destruct (dict_get (_dataChannels s) k) as [dc|] eqn:Hk.
      * rewrite (on_close_present _ _ _ Hk). cbn [snd].
        rewrite closes_sent_add_trace. cbn [is_close_of].
        rewrite String.eqb_refl, andb_true_r.
        change (closes_sent id (set_dataChannels (dict_del (_dataChannels s) k) s))
          with (closes_sent id s).
        unfold present. cbn [_dataChannels add_trace set_dataChannels].
        case_bool_decide as Hid.
        -- subst k. rewrite dict_get_del_eq, Hk. lia.
        -- rewrite (dict_get_del_ne _ _ _ Hid). lia.
      * rewrite (on_close_absent _ _ Hk). cbn [snd]. lia.
    + pose proof (quiet_le id (on_message k message) s
        ltac:(unfold on_message; quiet_auto)). lia.
    + pose proof (quiet_le id (on_bufferedamountlow k) s
        ltac:(unfold on_bufferedamountlow; quiet_auto)). lia.
  - pose proof (quiet_le id (checkDataChannelsBufferedAmount others) s
      ltac:(unfold checkDataChannelsBufferedAmount; quiet_auto;
            apply quiet_poller_items)). lia.
  - pose proof (quiet_le id (modify (set_pc p)) s ltac:(quiet_auto)). lia.
Qed.

Lemma run_close_budget id inputs s :
  (closes_sent id (run inputs s) + present id (run inputs s)
   <= closes_sent id s + present id s + registrations id inputs s)%nat.
Proof.
  revert s. induction inputs as [|i inputs IH]; intros s; simpl; [lia|].
  pose proof (IH (step i s)). pose proof (step_close_budget id i s).
  unfold run in *. lia.
Qed.

(** C2. Once an explicit [datachannel.close] has been handled, the engine's
    close event for the same identifier runs to its end without an exception
    and changes nothing, so it sends no [close] notification.  And in every
    run, from a fresh handler or from any state, the [close] notifications
    sent for an identifier never outnumber the registrations of that
    identifier: at most one per registration. *)
Theorem close_notification_at_most_once (id : string) :
  (forall s data,
     let s1 :=
       snd (processNotification (Notification.mk "datachannel.close" (Some id) data) s) in
     on_close (Some id) s1 = (inr tt, s1))
  /\ (forall inputs s,
        closes_sent (Some id) (run inputs s) + present (Some id) (run inputs s)
        <= closes_sent (Some id) s + present (Some id) s
           + registrations (Some id) inputs s)%nat
  /\ (forall inputs handlerId p,
        closes_sent (Some id) (run inputs (Handler_init (E:=E) handlerId p))
        <= registrations (Some id) inputs (Handler_init (E:=E) handlerId p))%nat.
Proof.
  split_and!.
  - intros s data. simpl. apply on_close_absent, close_unregisters.
  - intros inputs s. apply run_close_budget.
  - intros inputs handlerId p.
    pose proof (run_close_budget (Some id) inputs (Handler_init (E:=E) handlerId p)) as H.
    unfold closes_sent at 2 in H. unfold present at 2 in H. simpl in H. lia.
Qed.

(** ** Tracks: [addTrack], [getMid], [removeTrack] *)

Lemma transceivers_getitem_hit s (trackId : string) tr :
  _transceivers s !! trackId = Some tr ->
  transceivers_getitem (PyStr trackId) s = (inr tr, s).
Proof. intros H. unfold transceivers_getitem. by rewrite H. Qed.

(** X1. [handler.addTrack] with a track the source resolves and the engine
    accepts returns the track's identifier and stores the new transceiver
    under it; a [handler.getMid] for that identifier right afterwards
    succeeds and returns the mid the engine has for that transceiver
    ([None] before negotiation), without changing anything. *)
Theorem addTrack_then_getMid s dataChannelId data playerId kind t tr p :
  py_getitem data "playerId" = inr playerId ->
  py_getitem data "kind" = inr kind ->
  getTrack E playerId kind = inr t ->
  pc_addTransceiver E t (_pc s) = (inr tr, p) ->
  let added := processRequest (Request.mk "handler.addTrack" dataChannelId data) s in
  let trackId := PyStr (track_id E t) in
  fst added = inr (PyDict [("trackId", trackId)])
  /\ _transceivers (snd added) = <[track_id E t := tr]> (_transceivers s)
  /\ _dataChannels (snd added) = _dataChannels s
  /\ trace (snd added)
     = trace s ++ [Call (CallGetTrack playerId kind); Call (CallAddTransceiver t)]
  /\ processRequest
       (Request.mk "handler.getMid" dataChannelId (PyDict [("trackId", trackId)]))
       (snd added)
     = (inr (from_option PyStr PyNone (transceiver_mid E tr p)), snd added).
Proof.
  intros Hp Hk Ht Ha. cbv zeta.
  assert (processRequest (Request.mk "handler.addTrack" dataChannelId data) s
          = (inr (PyDict [("trackId", PyStr (track_id E t))]),
             set_transceivers (<[track_id E t := tr]> (_transceivers s))
               (set_pc p
                  (add_trace (Call (CallAddTransceiver t))
                     (add_trace (Call (CallGetTrack playerId kind)) s))))) as ->.
  { unfold processRequest. cbn [Request.method Request.data String.eqb Ascii.eqb Bool.eqb].
    unfold bind, lift, library, engine. rewrite Hp, Hk, Ht. cbn [wrap].
    cbn [_pc add_trace]. rewrite Ha. reflexivity. }
  cbn [fst snd]. split_and!; try reflexivity.
  - cbn [trace set_transceivers set_pc add_trace]. by rewrite <- app_assoc.
  - unfold processRequest. cbn [Request.method Request.data String.eqb Ascii.eqb Bool.eqb].
    unfold bind at 1. cbn [lift py_get dict_get]. rewrite decide_True by done.
    cbn [default from_option id is_None]. unfold bind at 1.
    rewrite (transceivers_getitem_hit _ _ tr) by apply lookup_insert_eq.
    reflexivity.
Qed.

(** X2. [handler.removeTrack] for a registered track first tells the engine
    to stop sending (direction inactive, then the sender's track cleared) and
    only then deletes the registry entry: when the engine accepts both calls
    the entry is gone and a later [getMid] misses it; when the first call
    raises, the request fails with the engine's error and the entry is still
    registered. *)
Theorem removeTrack_teardown s dataChannelId data (trackId : string) tr :
  py_get data "trackId" = inr (PyStr trackId) ->
  _transceivers s !! trackId = Some tr ->
  let removed := processRequest (Request.mk "handler.removeTrack" dataChannelId data) s in
  (forall p1 p2,
     transceiver_set_direction E tr "inactive" (_pc s) = (inr tt, p1) ->
     sender_replaceTrack E tr None p1 = (inr tt, p2) ->
     fst removed = inr PyNone
     /\ _transceivers (snd removed) = delete trackId (_transceivers s)
     /\ _pc (snd removed) = p2
     /\ trace (snd removed)
        = trace s ++ [Call (CallSetDirection tr "inactive");
                      Call (CallReplaceTrack tr None)]
     /\ fst (processRequest (Request.mk "handler.getMid" dataChannelId data) (snd removed))
        = inl (KeyError (PyStr trackId)))
  /\ (forall e p1,
        transceiver_set_direction E tr "inactive" (_pc s) = (inl e, p1) ->
        fst removed = inl (EngineError e)
        /\ _transceivers (snd removed) !! trackId = Some tr).
Proof.
  intros Hget Hreg. cbv zeta.
  assert (forall s0, processRequest (Request.mk "handler.removeTrack" dataChannelId data) s0
          = bind (transceivers_getitem (PyStr trackId))
              (fun transceiver =>
                 bind (engine (CallSetDirection transceiver "inactive")
                         (transceiver_set_direction E transceiver "inactive"))
                   (fun _ =>
                      bind (engine (CallReplaceTrack transceiver None)
                              (sender_replaceTrack E transceiver None))
                        (fun _ => bind (transceivers_delitem (PyStr trackId))
                                    (fun _ => ret PyNone)))) s0) as Hunfold.
  { intros s0. unfold processRequest.
    cbn [Request.method Request.data String.eqb Ascii.eqb Bool.eqb].
    unfold bind at 1. unfold lift. rewrite Hget. reflexivity. }
  split.
  - intros p1 p2 Hd Hr.
    assert (processRequest (Request.mk "handler.removeTrack" dataChannelId data) s
            = (inr PyNone,
               set_transceivers (delete trackId (_transceivers s))
                 (set_pc p2
                    (add_trace (Call (CallReplaceTrack tr None))
                       (set_pc p1
                          (add_trace (Call (CallSetDirection tr "inactive")) s))))))
      as ->.
    { rewrite Hunfold. unfold bind, transceivers_delitem, bind, engine.
      rewrite (transceivers_getitem_hit _ _ _ Hreg). rewrite Hd.
      cbn [wrap _pc set_pc add_trace]. rewrite Hr. cbn [wrap].
      unfold transceivers_getitem. cbn [_transceivers set_pc add_trace].
      rewrite Hreg. reflexivity. }
    cbn [fst snd]. split_and!; try reflexivity.
    + cbn [trace set_transceivers set_pc add_trace]. by rewrite <- app_assoc.
    + unfold processRequest.
      cbn [Request.method Request.data String.eqb Ascii.eqb Bool.eqb].
      unfold bind at 1. unfold lift. rewrite Hget. cbn [is_None].
      unfold bind at 1. unfold transceivers_getitem.
      cbn [_transceivers set_transceivers]. by rewrite lookup_delete_eq.
  - intros e p1 Hd.
    assert (processRequest (Request.mk "handler.removeTrack" dataChannelId data) s
            = (inl (EngineError e),
               set_pc p1 (add_trace (Call (CallSetDirection tr "inactive")) s)))
      as ->.
    { rewrite Hunfold. unfold bind, engine.
      rewrite (transceivers_getitem_hit _ _ _ Hreg). by rewrite Hd. }
    split; [reflexivity | exact Hreg].
Qed.

(** ** Missing fields *)

(** X3. A [removeTrack] or [getMid] request whose data is a mapping without
    [trackId] (or with a null one), and a [getSenderStats] or
    [getReceiverStats] request whose data is a mapping without [mid], raise
    the [TypeError] that names the missing field, the failure the
    specification calls BadRequest, and leave the state as it was: no engine
    call is made. *)
Theorem missing_request_field_BadRequest s method dataChannelId data :
  (method = "handler.removeTrack" \/ method = "handler.getMid" ->
   py_get data "trackId" = inr PyNone ->
   processRequest (Request.mk method dataChannelId data) s
   = (inl (TypeError "missing trackId"), s))
  /\ (method = "handler.getSenderStats" \/ method = "handler.getReceiverStats" ->
      py_get data "mid" = inr PyNone ->
      processRequest (Request.mk method dataChannelId data) s
      = (inl (TypeError "missing mid"), s))
  /\ spec_error_kind (TypeError "missing trackId") = Some BadRequest
  /\ spec_error_kind (TypeError "missing mid") = Some BadRequest.
Proof.
  split_and!; [| |reflexivity|reflexivity].
  - intros [-> | ->] Hget; unfold processRequest;
      cbn [Request.method Request.data String.eqb Ascii.eqb Bool.eqb];
      unfold bind, lift; by rewrite Hget.
  - intros [-> | ->] Hget; unfold processRequest;
      cbn [Request.method Request.data String.eqb Ascii.eqb Bool.eqb];
      unfold bind, lift; by rewrite Hget.
Qed.

(** ** Notifications for a data channel *)

(** X4. The four data-channel notifications ([datachannel.send],
    [datachannel.sendBinary], [datachannel.close],
    [datachannel.setBufferedAmountLowThreshold]) without a [dataChannelId]
    raise [TypeError] "missing dataChannelId" and change nothing. *)
Theorem missing_dataChannelId_BadRequest s event data :
  event ∈ ["datachannel.send"; "datachannel.sendBinary"; "datachannel.close";
           "datachannel.setBufferedAmountLowThreshold"] ->
  processNotification (Notification.mk event None data) s
  = (inl (TypeError "missing dataChannelId"), s)
  /\ spec_error_kind (TypeError "missing dataChannelId") = Some BadRequest.
Proof.
  intros H. split; [|reflexivity].
  repeat (apply elem_of_cons in H as [->|H]; [reflexivity|]).
  by apply elem_of_nil in H.
Qed.

(** X5. [datachannel.send], [datachannel.sendBinary] and
    [datachannel.setBufferedAmountLowThreshold] for an identifier that is not
    registered raise the registry's [KeyError] (NotFound) before anything is
    done: no engine call, no decoding, no notification, state unchanged. *)
Theorem datachannel_unregistered_NotFound s event (id : string) data :
  event ∈ ["datachannel.send"; "datachannel.sendBinary";
           "datachannel.setBufferedAmountLowThreshold"] ->
  dict_get (_dataChannels s) (Some id) = None ->
  processNotification (Notification.mk event (Some id) data) s
  = (inl (KeyError (PyStr id)), s)
  /\ spec_error_kind (KeyError (PyStr id)) = Some NotFound.
Proof.
  intros H Hmiss. split; [|reflexivity].
  repeat (apply elem_of_cons in H as [->|H];
    [unfold processNotification;
     cbn [Notification.event Notification.dataChannelId Notification.data
          String.eqb Ascii.eqb Bool.eqb id_is_None];
     unfold bind at 1; by rewrite (dataChannels_getitem_None _ _ Hmiss)|]).
  by apply elem_of_nil in H.
Qed.

(** X6. [datachannel.send] on a registered channel calls [send] with the
    data and, when the engine accepts it, sends one [bufferedamount]
    notification keyed by the identifier with the amount the channel has
    after the send; when [send] raises, the notification fails with the
    engine's error and no [bufferedamount] goes out.  The registry is
    unchanged either way. *)
Theorem datachannel_send_reports_bufferedAmount s (id : string) data dc :
  dict_get (_dataChannels s) (Some id) = Some dc ->
  let sent := processNotification (Notification.mk "datachannel.send" (Some id) data) s in
  let answer := dc_send E dc data (_pc s) in
  _dataChannels (snd sent) = _dataChannels s
  /\ _pc (snd sent) = snd answer
  /\ match fst answer with
     | inr _ =>
         fst sent = inr tt
         /\ trace (snd sent)
            = trace s ++ [Call (CallSend dc data);
                          Notify (Some id) "bufferedamount"
                            (dc_bufferedAmount E dc (snd answer))]
     | inl e =>
         fst sent = inl (EngineError e)
         /\ trace (snd sent) = trace s ++ [Call (CallSend dc data)]
     end.
Proof.
  intros Hreg. cbv zeta. unfold processNotification.
  cbn [Notification.event Notification.dataChannelId Notification.data
       String.eqb Ascii.eqb Bool.eqb id_is_None].
  unfold bind, engine, dataChannels_getitem, gets, notify, modify.
  rewrite Hreg.
  destruct (dc_send E dc data (_pc s)) as [[e|[]] p]; cbn [wrap fst snd].
  - split_and!; reflexivity.
  - split_and!; try reflexivity.
    cbn [trace add_trace set_pc]. by rewrite <- app_assoc.
Qed.

(** ** The engine's close event *)

(** X7. The engine's close event for a registered identifier deletes the
    entry and sends exactly one [close] notification for it, leaving every
    other entry as it was; a second close event for the same identifier then
    finds nothing to delete and does nothing at all. *)
Theorem on_close_removes_and_notifies_once s dataChannelId dc :
  dict_get (_dataChannels s) dataChannelId = Some dc ->
  let s1 := snd (on_close dataChannelId s) in
  fst (on_close dataChannelId s) = inr tt
  /\ trace s1 = trace s ++ [Notify dataChannelId "close" PyNone]
  /\ dict_get (_dataChannels s1) dataChannelId = None
  /\ (forall other, other <> dataChannelId ->
        dict_get (_dataChannels s1) other = dict_get (_dataChannels s) other)
  /\ closes_sent dataChannelId s1 = S (closes_sent dataChannelId s)
  /\ on_close dataChannelId s1 = (inr tt, s1).
Proof.
  intros Hreg. cbv zeta. rewrite (on_close_present _ _ _ Hreg). cbn [fst snd].
  split_and!.
  - reflexivity.
  - reflexivity.
  - apply dict_get_del_eq.
  - intros other Hne. cbn [_dataChannels add_trace set_dataChannels].
    apply dict_get_del_ne. congruence.
  - rewrite closes_sent_add_trace. cbn [is_close_of].
    rewrite bool_decide_eq_true_2 by done. cbn [andb String.eqb Ascii.eqb Bool.eqb].
    change (closes_sent dataChannelId
              (set_dataChannels (dict_del (_dataChannels s) dataChannelId) s))
      with (closes_sent dataChannelId s). lia.
  - apply on_close_absent. apply dict_get_del_eq.
Qed.

(** ** Registering a data channel *)

(** X8. [handler.createDataChannel] does not check whether the identifier is
    already registered: the new channel takes the place of the old one under
    the same key, at the same position, and the registry does not grow; a
    fresh identifier is appended at the end.  Other identifiers keep their
    channels. *)
Theorem createDataChannel_replaces s dataChannelId kvs dc p :
  let opt k := default PyNone (dict_get kvs k) in
  let params :=
    Params.mk true (opt "id") (opt "ordered") (opt "maxPacketLifeTime")
      (opt "maxRetransmits") (opt "label") (opt "protocol") in
  pc_createDataChannel E params (_pc s) = (inr dc, p) ->
  let s1 :=
    snd (processRequest
           (Request.mk "handler.createDataChannel" dataChannelId (PyDict kvs)) s) in
  dict_get (_dataChannels s1) dataChannelId = Some dc
  /\ (forall other, other <> dataChannelId ->
        dict_get (_dataChannels s1) other = dict_get (_dataChannels s) other)
  /\ dict_keys (_dataChannels s1)
     = match dict_get (_dataChannels s) dataChannelId with
       | Some _ => dict_keys (_dataChannels s)
       | None => dict_keys (_dataChannels s) ++ [dataChannelId]
       end
  /\ _transceivers s1 = _transceivers s.
Proof.
  intros opt params Hcreate. cbv zeta.
  rewrite (createDataChannel_call s dataChannelId kvs dc p Hcreate). cbn [snd].
  cbn [_dataChannels set_dataChannels set_pc add_trace _transceivers].
  split_and!.
  - apply dict_get_set_eq.
  - intros other Hne. apply dict_get_set_ne. congruence.
  - apply dict_keys_set.
  - reflexivity.
Qed.

(** X9. When the engine refuses to create the channel, the request fails
    with the engine's error and neither registry changes: nothing is stored
    under the identifier. *)
Theorem createDataChannel_engine_error s dataChannelId kvs e p :
  let opt k := default PyNone (dict_get kvs k) in
  let params :=
    Params.mk true (opt "id") (opt "ordered") (opt "maxPacketLifeTime")
      (opt "maxRetransmits") (opt "label") (opt "protocol") in
  pc_createDataChannel E params (_pc s) = (inl e, p) ->
  let r :=
    processRequest (Request.mk "handler.createDataChannel" dataChannelId (PyDict kvs)) s in
  fst r = inl (EngineError e)
  /\ _dataChannels (snd r) = _dataChannels s
  /\ _transceivers (snd r) = _transceivers s
  /\ trace (snd r) = trace s ++ [Call (CallCreateDataChannel params)].
Proof.
  intros opt params Hcreate. subst opt params. cbv zeta.
  unfold processRequest. simpl in *. unfold bind, lift, engine. simpl.
  rewrite Hcreate. split_and!; reflexivity.
Qed.

(** ** Looking a transceiver up by its mid *)

(** X10. [_getTransceiverByMid] never raises and never changes the state; it
    returns a transceiver of the engine's live list whose mid is the one asked
    for, the first such in the list's order, and [None] exactly when no live
    transceiver has that mid. *)
Theorem _getTransceiverByMid_first_match s (mid : string) :
  let live := pc_getTransceivers E (_pc s) in
  let has_mid x := transceiver_mid E x (_pc s) = Some mid in
  snd (_getTransceiverByMid (PyStr mid) s) = s
  /\ match fst (_getTransceiverByMid (PyStr mid) s) with
     | inr (Some tr) =>
         exists before after,
           live = before ++ tr :: after
           /\ has_mid tr
           /\ Forall (fun x => ~ has_mid x) before
     | inr None => Forall (fun x => ~ has_mid x) live
     | inl _ => False
     end.
Proof.
  cbv zeta. split; [reflexivity|].
  unfold _getTransceiverByMid, gets. cbn [fst].
  assert (forall x, mid_matches (transceiver_mid E x (_pc s)) (PyStr mid) = true
                    <-> transceiver_mid E x (_pc s) = Some mid) as Hm.
  { intros x. unfold mid_matches. destruct (transceiver_mid E x (_pc s)) as [m|].
    - cbn [py_eq_str]. rewrite String.eqb_eq. split; [by intros -> | by intros [= ->]].
    - cbn [is_None]. split; discriminate. }
  induction (pc_getTransceivers E (_pc s)) as [|x l IH]; cbn [find].
  - constructor.
  - destruct (mid_matches (transceiver_mid E x (_pc s)) (PyStr mid)) eqn:Hx.
    + exists [], l. split_and!; [done | by apply Hm | constructor].
    + assert (transceiver_mid E x (_pc s) <> Some mid) as Hnx.
      { intros H. apply Hm in H. congruence. }
      destruct (find _ l) as [tr|].
      * destruct IH as (before & after & -> & Htr & Hbefore).
        exists (x :: before), after. split_and!; [done | done | by constructor].
      * by constructor.
Qed.

(** ** The local description *)

(** X11. [handler.getLocalDescription] returns [None] while the engine has no
    local description and the pair of its [type] and [sdp] once it has one;
    it makes no engine call and changes nothing. *)
Theorem getLocalDescription_reads s dataChannelId data :
  let r := processRequest (Request.mk "handler.getLocalDescription" dataChannelId data) s in
  snd r = s
  /\ (pc_localDescription E (_pc s) = PyNone -> fst r = inr PyNone)
  /\ (forall cls attrs type sdp,
        pc_localDescription E (_pc s) = PyObject cls attrs ->
        dict_get attrs "type" = Some type ->
        dict_get attrs "sdp" = Some sdp ->
        fst r = inr (PyDict [("type", type); ("sdp", sdp)])).
Proof.
  cbv zeta. unfold processRequest.
  cbn [Request.method Request.data String.eqb Ascii.eqb Bool.eqb].
  unfold bind, gets, description_dict, bind, lift, ret.
  split_and!.
  - destruct (pc_localDescription E (_pc s)) as [| | | | | | | | |cls attrs];
      cbn [is_None negb py_getattr]; try reflexivity.
    destruct (dict_get attrs "type"); [|reflexivity].
    destruct (dict_get attrs "sdp"); reflexivity.
  - intros ->. reflexivity.
  - intros cls attrs type sdp -> Ht Hs. cbn [is_None negb py_getattr].
    rewrite Ht, Hs. reflexivity.
Qed.

(** ** Binary frames *)

(** X12. [datachannel.sendBinary] on a registered channel decodes the data
    first: when the decoding fails nothing is sent and nothing is notified;
    when it succeeds the decoded bytes are what [send] is called with, and an
    accepted send is followed by one [bufferedamount] notification with the
    amount after the send. *)
Theorem datachannel_sendBinary_decodes_first s (id : string) data dc :
  dict_get (_dataChannels s) (Some id) = Some dc ->
  let r :=
    processNotification (Notification.mk "datachannel.sendBinary" (Some id) data) s in
  (forall e,
     b64decode E data = inl e ->
     fst r = inl (EngineError e)
     /\ trace (snd r) = trace s ++ [Call (CallB64decode data)]
     /\ _pc (snd r) = _pc s)
  /\ (forall decoded p,
        b64decode E data = inr decoded ->
        dc_send E dc (PyBytes decoded) (_pc s) = (inr tt, p) ->
        fst r = inr tt
        /\ _pc (snd r) = p
        /\ trace (snd r)
           = trace s ++ [Call (CallB64decode data);
                         Call (CallSend dc (PyBytes decoded));
                         Notify (Some id) "bufferedamount" (dc_bufferedAmount E dc p)]).
Proof.
  intros Hreg. cbv zeta. unfold processNotification.
  cbn [Notification.event Notification.dataChannelId Notification.data
       String.eqb Ascii.eqb Bool.eqb id_is_None].
  unfold bind, engine, library, dataChannels_getitem, gets, notify, modify.
  rewrite Hreg. split.
  - intros e ->. cbn [wrap fst snd]. split_and!; reflexivity.
  - intros decoded p -> Hsend. cbn [wrap _pc add_trace]. rewrite Hsend.
    cbn [wrap fst snd]. split_and!; try reflexivity.
    cbn [trace add_trace set_pc]. by rewrite <- !app_assoc.
Qed.

(** ** Statistics of one sender or receiver *)

Lemma sender_stats_arm_agrees type : arm_agrees sender_stats_arm type.
Proof.
  unfold arm_agrees, sender_stats_arm, spec_field_set, py_eq_str.
  destruct type as [| | | |t| | | | |]; try exact I.
  destruct (String.eqb_spec t "outbound-rtp") as [->|];
    [eexists; split_and!; reflexivity|].
  destruct (String.eqb_spec t "remote-inbound-rtp") as [->|];
    [eexists; split_and!; reflexivity|].
  destruct (String.eqb_spec t "transport") as [->|];
    [eexists; split_and!; reflexivity|].
  exact I.
Qed.

Lemma receiver_stats_arm_agrees type : arm_agrees receiver_stats_arm type.
Proof.
  unfold arm_agrees, receiver_stats_arm, spec_field_set, py_eq_str.
  destruct type as [| | | |t| | | | |]; try exact I.
  destruct (String.eqb_spec t "inbound-rtp") as [->|];
    [eexists; split_and!; reflexivity|].
  destruct (String.eqb_spec t "remote-outbound-rtp") as [->|];
    [eexists; split_and!; reflexivity|].
  destruct (String.eqb_spec t "transport") as [->|];
    [eexists; split_and!; reflexivity|].
  exact I.
Qed.

Lemma arm_entry_spec arm entry type :
  (forall t, arm_agrees arm t) ->
  engine_entry entry ->
  py_getattr entry "type" = inr type ->
  match arm type with
  | Some ser => exists v, ser entry = inr v /\ arm_serialized arm entry = Some v
  | None => arm_serialized arm entry = None
  end.
Proof.
  intros Hagree (type' & Ht & Hfields) Htype.
  assert (type' = type) as -> by congruence.
  specialize (Hagree type). unfold arm_agrees in Hagree.
  unfold arm_serialized, spec_serialized. rewrite Htype.
  destruct (arm type) as [ser|]; [|done].
  destruct Hagree as (fs & -> & Hc & Hset). rewrite Hset.
  destruct (spec_fields_dict_total entry _ (Hfields _ Hset)) as (d & Hd & _).
  exists (PyDict d). rewrite Hd. split; [|done].
  unfold serialize. by rewrite (read_fields_spec _ _ _ Hc Hd).
Qed.

Lemma stats_loop_arm arm stats keys r :
  (forall t, arm_agrees arm t) ->
  Forall (fun key => exists entry,
            dict_get stats key = Some entry /\ engine_entry entry) keys ->
  exists result,
    stats_loop arm stats keys r = inr result
    /\ forall key,
         dict_get result key =
           if decide (key ∈ keys)
           then match dict_get stats key ≫= arm_serialized arm with
                | Some v => Some v
                | None => dict_get r key
                end
           else dict_get r key.
Proof.
  intros Hagree Hkeys. revert r.
  induction Hkeys as [|k keys (entry & Hk & Hentry) _ IH]; intros r.
  - exists r. split; [done|]. intros key.
    by rewrite decide_False by apply not_elem_of_nil.
  - cbn [stats_loop]. rewrite Hk.
    pose proof Hentry as (type & Htype & _). rewrite Htype.
    pose proof (arm_entry_spec arm entry type Hagree Hentry Htype) as Hspec.
    destruct (arm type) as [ser|].
    + destruct Hspec as (v & -> & Hv).
      destruct (IH (dict_set r k v)) as (result & -> & Hget).
      exists result. split; [done|]. intros key. rewrite Hget.
      destruct (decide (key = k)) as [->|Hne].
      * rewrite (decide_True (P := k ∈ k :: keys)) by left.
        rewrite Hk. cbn [mbind option_bind]. rewrite Hv, dict_get_set_eq.
        by destruct (decide (k ∈ keys)).
      * rewrite (dict_get_set_ne _ _ _ _ (not_eq_sym Hne)).
        destruct (decide (key ∈ keys)) as [Hin|Hnin].
        -- by rewrite decide_True by (by right).
        -- rewrite decide_False; [done|]. intros [?|?]%elem_of_cons; done.
    + destruct (IH r) as (result & -> & Hget).
      exists result. split; [done|]. intros key. rewrite Hget.
      destruct (decide (key = k)) as [->|Hne].
      * rewrite (decide_True (P := k ∈ k :: keys)) by left.
        rewrite Hk. cbn [mbind option_bind]. rewrite Hspec.
        by destruct (decide (k ∈ keys)).
      * destruct (decide (key ∈ keys)) as [Hin|Hnin].
        -- by rewrite decide_True by (by right).
        -- rewrite decide_False; [done|]. intros [?|?]%elem_of_cons; done.
Qed.

Lemma serialize_report_arm arm stats :
  (forall t, arm_agrees arm t) ->
  engine_report stats ->
  exists result,
    serialize_report arm stats = inr (PyDict result)
    /\ forall key, dict_get result key = dict_get stats key ≫= arm_serialized arm.
Proof.
  intros Hagree Hreport.
  destruct (stats_loop_arm arm stats (dict_keys stats) [] Hagree
              (engine_report_keys _ Hreport)) as (result & Hloop & Hget).
  exists result. unfold serialize_report. rewrite Hloop. split; [done|].
  intros key. rewrite Hget. destruct (decide (key ∈ dict_keys stats)) as [Hin|Hnin].
  - by destruct (dict_get stats key ≫= arm_serialized arm).
  - apply dict_get_None in Hnin. by rewrite Hnin.
Qed.

(** X13. For a mid that a live transceiver has, [handler.getSenderStats]
    serializes the report of that transceiver's sender and keeps only the
    entries of type outbound-rtp, remote-inbound-rtp and transport, so an
    inbound-rtp or remote-outbound-rtp entry of the report is left out;
    [handler.getReceiverStats] does the same with the receiver's report and
    the types inbound-rtp, remote-outbound-rtp and transport. *)
Theorem stats_by_mid_select_by_direction s dataChannelId data (mid : string) tr stats p :
  py_get data "mid" = inr (PyStr mid) ->
  fst (_getTransceiverByMid (PyStr mid) s) = inr (Some tr) ->
  engine_report stats ->
  (sender_getStats E tr (_pc s) = (inr stats, p) ->
   exists result,
     fst (processRequest (Request.mk "handler.getSenderStats" dataChannelId data) s)
     = inr (PyDict result)
     /\ forall key,
          dict_get result key = dict_get stats key ≫= arm_serialized sender_stats_arm)
  /\ (receiver_getStats E tr (_pc s) = (inr stats, p) ->
      exists result,
        fst (processRequest (Request.mk "handler.getReceiverStats" dataChannelId data) s)
        = inr (PyDict result)
        /\ forall key,
             dict_get result key = dict_get stats key ≫= arm_serialized receiver_stats_arm)
  /\ (forall entry (t : string),
        py_getattr entry "type" = inr (PyStr t) ->
        arm_serialized sender_stats_arm entry
        = (if bool_decide (t ∈ ["outbound-rtp"; "remote-inbound-rtp"; "transport"])
           then spec_serialized entry else None)
        /\ arm_serialized receiver_stats_arm entry
           = (if bool_decide (t ∈ ["inbound-rtp"; "remote-outbound-rtp"; "transport"])
              then spec_serialized entry else None)).
Proof.
  intros Hget Hfind Hreport.
  assert (_getTransceiverByMid (PyStr mid) s = (inr (Some tr), s)) as Hfind'.
  { unfold _getTransceiverByMid, gets in *. cbn [fst] in Hfind. by rewrite Hfind. }
  split_and!.
  - intros Hstats.
    destruct (serialize_report_arm sender_stats_arm stats sender_stats_arm_agrees Hreport)
      as (result & Hser & Hlook).
    exists result. split; [|done].
    unfold processRequest.
    cbn [Request.method Request.data String.eqb Ascii.eqb Bool.eqb].
    unfold bind at 1. unfold lift at 1. rewrite Hget. cbn [is_None].
    unfold bind at 1. rewrite Hfind'.
    unfold bind, engine, lift. rewrite Hstats. cbn [wrap fst]. by rewrite Hser.
  - intros Hstats.
    destruct (serialize_report_arm receiver_stats_arm stats receiver_stats_arm_agrees
                Hreport) as (result & Hser & Hlook).
    exists result. split; [|done].
    unfold processRequest.
    cbn [Request.method Request.data String.eqb Ascii.eqb Bool.eqb].
    unfold bind at 1. unfold lift at 1. rewrite Hget. cbn [is_None].
    unfold bind at 1. rewrite Hfind'.
    unfold bind, engine, lift. rewrite Hstats. cbn [wrap fst]. by rewrite Hser.
  - intros entry t Htype. unfold arm_serialized. rewrite Htype.
    unfold sender_stats_arm, receiver_stats_arm, py_eq_str.
    split.
    + destruct (String.eqb_spec t "outbound-rtp") as [->|H1]; [done|].
      destruct (String.eqb_spec t "remote-inbound-rtp") as [->|H2]; [done|].
      destruct (String.eqb_spec t "transport") as [->|H3]; [done|].
      rewrite bool_decide_eq_false_2; [done|].
      rewrite !elem_of_cons, elem_of_nil. naive_solver.
    + destruct (String.eqb_spec t "inbound-rtp") as [->|H1]; [done|].
      destruct (String.eqb_spec t "remote-outbound-rtp") as [->|H2]; [done|].
      destruct (String.eqb_spec t "transport") as [->|H3]; [done|].
      rewrite bool_decide_eq_false_2; [done|].
      rewrite !elem_of_cons, elem_of_nil. naive_solver.
Qed.

(** ** The serializers *)

Lemma read_fields_all stats fs d :
  forallb canonical fs = true ->
  read_fields stats fs = inr d ->
  map fst d = map field_name fs
  /\ forall name, name ∈ map field_name fs ->
       exists a, py_getattr stats name = inr a
                 /\ (is_stamp name = false -> (name, a) ∈ d).
Proof.
  revert d. induction fs as [|f fs IH]; cbn [read_fields forallb map]; intros d Hc.
  - intros [= <-]. split; [done|]. intros name Hin. by apply elem_of_nil in Hin.
  - apply andb_prop in Hc as [Hf Hfs].
    destruct (read_field stats f) as [e|v] eqn:Hv; [done|].
    destruct (read_fields stats fs) as [e|d'] eqn:Hd; [done|].
    intros [= <-]. destruct (IH d' Hfs eq_refl) as [Hn Hall].
    split; [cbn [map fst]; by rewrite Hn|].
    intros name [->|Hin]%elem_of_cons.
    + destruct f as [n|n]; cbn [field_name read_field canonical] in *.
      * exists v. split; [done|]. intros _. left.
      * destruct (py_getattr stats n) as [e|t]; [done|].
        exists t. split; [done|]. intros Hs. congruence.
    + destruct (Hall name Hin) as (a & Ha & Hd'). exists a. split; [done|].
      intros Hs. right. by apply Hd'.
Qed.

Lemma serialize_all_or_nothing fs stats :
  forallb canonical fs = true ->
  all_or_nothing (serialize fs) (map field_name fs) stats.
Proof.
  intros Hc. unfold all_or_nothing, serialize.
  destruct (read_fields stats fs) as [e|d] eqn:Hd.
  - split; [done|]. intros. by eexists.
  - destruct (read_fields_all stats fs d Hc Hd) as [Hn Hall]. split.
    + exists d. split_and!; done.
    + intros name Hin Hmiss. destruct (Hall name Hin) as (a & Ha & _).
      by destruct (Hmiss a).
Qed.

(** X14. Each of the five serializers, for any statistics object: when it
    returns, the result is a mapping with exactly the serializer's field
    names, in the order of its dictionary display, and every field that is
    not a time stamp holds the object's attribute of that name; when the
    object lacks one of the attributes, the serializer raises and no partial
    mapping is returned. *)
Theorem serializers_all_or_nothing stats :
  all_or_nothing _serializeInboundStats
    ["timestamp"; "type"; "id"; "ssrc"; "kind"; "transportId";
     "packetsReceived"; "packetsLost"; "jitter"] stats
  /\ all_or_nothing _serializeOutboundStats
       ["timestamp"; "type"; "id"; "ssrc"; "kind"; "transportId";
        "packetsSent"; "bytesSent"; "trackId"] stats
  /\ all_or_nothing _serializeRemoteInboundStats
       ["timestamp"; "type"; "id"; "ssrc"; "kind"; "transportId";
        "packetsReceived"; "packetsLost"; "jitter"; "roundTripTime"; "fractionLost"]
       stats
  /\ all_or_nothing _serializeRemoteOutboundStats
       ["timestamp"; "type"; "id"; "ssrc"; "kind"; "transportId";
        "packetsSent"; "bytesSent"; "remoteTimestamp"] stats
  /\ all_or_nothing _serializeTransportStats
       ["timestamp"; "type"; "id"; "packetsSent"; "packetsReceived"; "bytesSent";
        "bytesReceived"; "iceRole"; "dtlsState"] stats.
Proof.
  split_and!.
  - apply (serialize_all_or_nothing inbound_fields). reflexivity.
  - apply (serialize_all_or_nothing outbound_fields). reflexivity.
  - apply (serialize_all_or_nothing remote_inbound_fields). reflexivity.
  - apply (serialize_all_or_nothing remote_outbound_fields). reflexivity.
  - apply (serialize_all_or_nothing transport_fields). reflexivity.
Qed.

(** ** How a run changes the registries *)

Lemma processNotification_registry_step notification s :
  registry_step (_dataChannels s)
    (_dataChannels (snd (processNotification notification s))).
Proof.
  destruct notification as [event dcid data].
  destruct (String.eqb_spec event "datachannel.close") as [->|Hne].
  - destruct dcid as [k|]; [|by left].
    destruct (dict_get (_dataChannels s) (Some k)) as [dc|] eqn:Hk.
    + rewrite (close_present _ _ _ _ Hk), engine_dataChannels.
      right; right. by exists (Some k).
    + rewrite (close_absent _ _ _ Hk). by left.
  - assert (quiet (E:=E) None (processNotification (Notification.mk event dcid data)))
      as Hq.
    { unfold processNotification. simpl.
      rewrite (proj2 (String.eqb_neq _ _) Hne).
      repeat (destruct (String.eqb event _); [quiet_auto|]).
      quiet_auto. }
    left. apply Hq.
Qed.

Lemma step_registry_step i s :
  registry_step (_dataChannels s) (_dataChannels (step i s)).
Proof.
  unfold step.
  destruct i as [request|notification|t| | | |k ev|others|p]; cbn [handle].
  - unfold forget.
    assert (snd (bind (processRequest request) (fun _ => ret tt) s)
            = snd (processRequest request s)) as ->.
    { unfold bind. by destruct (processRequest request s) as [[e|v] s1]. }
    destruct (String.eqb_spec (Request.method request) "handler.createDataChannel")
      as [Hm|Hm].
    + destruct (createDataChannel_registry None request s Hm) as [_ Hreg].
      destruct (fst (processRequest request s)) as [e|v].
      * by left.
      * destruct Hreg as [dc Hreg]. right; left. by exists (Request.dataChannelId request), dc.
    + left. apply (quiet_processRequest None request Hm).
  - apply processNotification_registry_step.
  - left. by apply (ltac:(unfold on_track; quiet_auto) : quiet (E:=E) None (on_track t)).
  - left. by apply (ltac:(unfold on_signalingstatechange; quiet_auto)
                    : quiet (E:=E) None on_signalingstatechange).
  - left. by apply (ltac:(unfold on_icegatheringstatechange; quiet_auto)
                    : quiet (E:=E) None on_icegatheringstatechange).
  - left. by apply (ltac:(unfold on_iceconnectionstatechange; quiet_auto)
                    : quiet (E:=E) None on_iceconnectionstatechange).
  - destruct ev as [| | |message|]; cbn [handle].
    + left. by apply (ltac:(unfold on_open; quiet_auto) : quiet (E:=E) None (on_open k)).
    + left. by apply (ltac:(unfold on_closing; quiet_auto)
                      : quiet (E:=E) None (on_closing k)).
    + destruct (dict_get (_dataChannels s) k) as [dc|] eqn:Hk.
      * rewrite (on_close_present _ _ _ Hk). right; right. by exists k.
      * rewrite (on_close_absent _ _ Hk). by left.
    + left. by apply (ltac:(unfold on_message; quiet_auto)
                      : quiet (E:=E) None (on_message k message)).
    + left. by apply (ltac:(unfold on_bufferedamountlow; quiet_auto)
                      : quiet (E:=E) None (on_bufferedamountlow k)).
  - left. by apply (ltac:(unfold checkDataChannelsBufferedAmount; quiet_auto;
                          apply quiet_poller_items)
                    : quiet (E:=E) None (checkDataChannelsBufferedAmount others)).
  - by left.
Qed.

(** X15. Whatever arrives (requests, notifications, engine events, poller
    rounds), one step changes the data-channel registry in at most one of two
    ways, it stores one entry or it deletes one; so along every run from a
    fresh handler the registry never holds an identifier twice, and each
    registered identifier maps to one channel. *)
Theorem registry_identifiers_stay_unique inputs :
  (forall i (s : @Handler E),
     registry_step (_dataChannels s) (_dataChannels (step i s)))
  /\ (forall s, dict_wf (_dataChannels s) -> dict_wf (_dataChannels (run inputs s)))
  /\ (forall handlerId p,
        dict_wf (_dataChannels (run inputs (Handler_init (E:=E) handlerId p)))).
Proof.
  assert (forall s, dict_wf (_dataChannels s) -> dict_wf (_dataChannels (run inputs s)))
    as Hrun.
  { induction inputs as [|i inputs IH]; intros s Hwf; [done|].
    cbn [run fold_left]. apply IH.
    destruct (step_registry_step i s) as [-> | [(k & v & ->) | (k & ->)]];
      [done | by apply dict_wf_set | by apply dict_wf_del]. }
  split_and!.
  - apply step_registry_step.
  - exact Hrun.
  - intros handlerId p. apply Hrun. apply NoDup_nil_2.
Qed.

(** ** Observations a computation keeps *)

Section Keeps.
Context {X : Type} (f : @Handler E -> X).
Hypothesis f_call : forall c s, f (add_trace (Call c) s) = f s.
Hypothesis f_pc : forall p s, f (set_pc p s) = f s.

Lemma keeps_ret {A} (a : A) : keeps f (ret a).
Proof. by intros s. Qed.

Lemma keeps_raise {A} e : keeps (A:=A) f (raise e).
Proof. by intros s. Qed.

Lemma keeps_lift {A} (r : pyexn + A) : keeps f (lift r).
Proof. by intros s. Qed.

Lemma keeps_gets {A} (g : @Handler E -> A) : keeps f (gets g).
Proof. by intros s. Qed.

Lemma keeps_bind {A B} (m : @M E A) (k : A -> @M E B) :
  keeps f m -> (forall a, keeps f (k a)) -> keeps f (bind m k).
Proof.
  intros Hm Hk s. unfold bind. specialize (Hm s).
  destruct (m s) as [[e|a] s1]; cbn [snd] in *; [done|].
  by rewrite (Hk a s1).
Qed.

Lemma keeps_engine {A} c (op : engine_op (RTCPeerConnection E) A) :
  keeps f (engine c op).
Proof.
  intros s. unfold engine. destruct (op (_pc s)) as [r p]. cbn [snd].
  by rewrite f_pc, f_call.
Qed.

Lemma keeps_library {A} c (r : string + A) : keeps f (library c r).
Proof. intros s. unfold library. cbn [snd]. apply f_call. Qed.

Lemma keeps_modify (g : @Handler E -> @Handler E) :
  (forall s, f (g s) = f s) -> keeps f (modify g).
Proof. intros H s. apply H. Qed.

Lemma keeps_transceivers_getitem key : keeps f (transceivers_getitem key).
Proof.
  intros s. unfold transceivers_getitem.
  destruct key; try destruct (_transceivers s !! _); cbn [snd]; try done;
    by destruct (hashable _).
Qed.

Lemma keeps_dataChannels_getitem k : keeps f (dataChannels_getitem k).
Proof.
  intros s. unfold dataChannels_getitem. by destruct (dict_get (_dataChannels s) k).
Qed.

Lemma keeps_except_KeyError_pass body :
  keeps f body -> keeps f (except_KeyError_pass body).
Proof.
  intros H s. unfold except_KeyError_pass. specialize (H s).
  destruct (body s) as [[[]|[]] s1]; done.
Qed.

End Keeps.

Ltac keeps_step :=
  first
    [ apply keeps_ret | apply keeps_raise | apply keeps_lift | apply keeps_gets
    | apply keeps_engine; solve [intros; reflexivity | assumption]
    | apply keeps_library; solve [intros; reflexivity | assumption]
    | apply keeps_transceivers_getitem | apply keeps_dataChannels_getitem
    | apply keeps_modify; intros ?; reflexivity
    | apply keeps_except_KeyError_pass
    | apply keeps_bind; [|intros ?]
    | match goal with
      | |- keeps _ (if ?b then _ else _) => destruct b
      | |- keeps _ (match ?x with _ => _ end) => destruct x
      end ].

Ltac keeps_auto := repeat keeps_step.

Lemma keeps_transceivers_poller_items items others :
  keeps (E:=E) _transceivers (poller_items items others).
Proof.
  revert others. induction items as [|[k dc] items IH]; intros others; cbn [poller_items].
  - apply keeps_ret.
  - unfold notify. keeps_auto. apply IH.
Qed.

(** X16. The transceiver registry is changed by [handler.addTrack] and
    [handler.removeTrack] requests only: every other request, every
    notification, every engine event and every poller round leaves it exactly
    as it was, whether the step succeeds or raises. *)
Theorem transceivers_changed_only_by_track_requests i s :
  (forall request,
     i = InRequest request ->
     Request.method request <> "handler.addTrack"
     /\ Request.method request <> "handler.removeTrack") ->
  _transceivers (step i s) = _transceivers s.
Proof.
  intros Hreq. unfold step.
  assert (keeps (E:=E) _transceivers (handle i)) as Hk; [|apply Hk].
  destruct i as [request|notification|t| | | |k ev|others|p]; cbn [handle].
  - destruct (Hreq request eq_refl) as [Hadd Hrem].
    destruct request as [method dcid data]. cbn [Request.method] in *.
    unfold forget, processRequest, description_dict, new_description,
      transceivers_delitem, _getTransceiverByMid.
    cbn [Request.method Request.data Request.dataChannelId].
    rewrite (proj2 (String.eqb_neq _ _) Hadd), (proj2 (String.eqb_neq _ _) Hrem).
    apply keeps_bind; [|intros ?; apply keeps_ret].
    repeat (destruct (String.eqb method _); [keeps_auto|]).
    keeps_auto.
  - destruct notification as [event dcid data].
    unfold processNotification, Logger, notify, dataChannels_delitem.
    cbn [Notification.event Notification.data Notification.dataChannelId].
    repeat (destruct (String.eqb event _); [keeps_auto|]).
    keeps_auto.
  - unfold on_track, Logger. keeps_auto.
  - unfold on_signalingstatechange, Logger, notify. keeps_auto.
  - unfold on_icegatheringstatechange, Logger, notify. keeps_auto.
  - unfold on_iceconnectionstatechange, Logger, notify. keeps_auto.
  - destruct ev as [| | |message|]; cbn [handle];
      unfold on_open, on_closing, on_close, on_message, on_bufferedamountlow,
        notify, dataChannels_delitem; keeps_auto.
  - unfold checkDataChannelsBufferedAmount. keeps_auto.
    apply keeps_transceivers_poller_items.
  - keeps_auto.
Qed.

Lemma outbound_call c (s : @Handler E) : outbound (add_trace (Call c) s) = outbound s.
Proof.
  unfold outbound. cbn [trace add_trace]. rewrite List.filter_app. cbn [List.filter is_call negb].
  apply app_nil_r.
Qed.

Lemma outbound_pc p (s : @Handler E) : outbound (set_pc p s) = outbound s.
Proof. reflexivity. Qed.

(** X17. Handling a request never sends a notification and never writes to
    the log: whatever the method, the data and the outcome, the only effects
    [processRequest] adds to the trace are calls into the engine, the track
    source or a library, and the handler's identifier stays the same. *)
Theorem processRequest_sends_nothing request s :
  outbound (snd (processRequest request s)) = outbound s
  /\ _handlerId (snd (processRequest request s)) = _handlerId s.
Proof.
  split.
  - assert (keeps (E:=E) outbound (processRequest request)) as Hk; [|apply Hk].
    pose proof outbound_call as Hc. pose proof outbound_pc as Hp.
    destruct request as [method dcid data].
    unfold processRequest, description_dict, new_description,
      transceivers_delitem, _getTransceiverByMid.
    cbn [Request.method Request.data Request.dataChannelId].
    repeat (destruct (String.eqb method _); [keeps_auto|]).
    keeps_auto.
  - assert (keeps (E:=E) _handlerId (processRequest request)) as Hk; [|apply Hk].
    destruct request as [method dcid data].
    unfold processRequest, description_dict, new_description,
      transceivers_delitem, _getTransceiverByMid.
    cbn [Request.method Request.data Request.dataChannelId].
    repeat (destruct (String.eqb method _); [keeps_auto|]).
    keeps_auto.
Qed.

(** ** Offers and answers *)

(** X18. [handler.createOffer] and [handler.createAnswer] return the [type]
    and [sdp] of the description the engine made, in that order, and pass an
    engine failure on as it is; neither touches the registries. *)
Theorem createOffer_createAnswer_results s dataChannelId data :
  let offered := processRequest (Request.mk "handler.createOffer" dataChannelId data) s in
  let answered := processRequest (Request.mk "handler.createAnswer" dataChannelId data) s in
  (forall cls attrs type sdp p,
     pc_createOffer E (_pc s) = (inr (PyObject cls attrs), p) ->
     dict_get attrs "type" = Some type ->
     dict_get attrs "sdp" = Some sdp ->
     fst offered = inr (PyDict [("type", type); ("sdp", sdp)]))
  /\ (forall e p, pc_createOffer E (_pc s) = (inl e, p) ->
        fst offered = inl (EngineError e))
  /\ (forall cls attrs type sdp p,
        pc_createAnswer E (_pc s) = (inr (PyObject cls attrs), p) ->
        dict_get attrs "type" = Some type ->
        dict_get attrs "sdp" = Some sdp ->
        fst answered = inr (PyDict [("type", type); ("sdp", sdp)]))
  /\ (forall e p, pc_createAnswer E (_pc s) = (inl e, p) ->
        fst answered = inl (EngineError e))
  /\ _dataChannels (snd offered) = _dataChannels s
  /\ _transceivers (snd offered) = _transceivers s
  /\ _dataChannels (snd answered) = _dataChannels s
  /\ _transceivers (snd answered) = _transceivers s.
Proof.
  cbv zeta. unfold processRequest.
  cbn [Request.method Request.data String.eqb Ascii.eqb Bool.eqb].
  unfold bind, engine, description_dict, bind, lift, ret.
  split_and!.
  - intros cls attrs type sdp p -> Ht Hs. cbn [wrap py_getattr]. by rewrite Ht, Hs.
  - by intros e p ->.
  - intros cls attrs type sdp p -> Ht Hs. cbn [wrap py_getattr]. by rewrite Ht, Hs.
  - by intros e p ->.
  - destruct (pc_createOffer E (_pc s)) as [[e|d] p]; cbn [wrap]; [done|].
    destruct (py_getattr d "type"); [done|]. by destruct (py_getattr d "sdp").
  - destruct (pc_createOffer E (_pc s)) as [[e|d] p]; cbn [wrap]; [done|].
    destruct (py_getattr d "type"); [done|]. by destruct (py_getattr d "sdp").
  - destruct (pc_createAnswer E (_pc s)) as [[e|d] p]; cbn [wrap]; [done|].
    destruct (py_getattr d "type"); [done|]. by destruct (py_getattr d "sdp").
  - destruct (pc_createAnswer E (_pc s)) as [[e|d] p]; cbn [wrap]; [done|].
    destruct (py_getattr d "type"); [done|]. by destruct (py_getattr d "sdp").
Qed.

(** X19. [handler.setLocalDescription] and [handler.setRemoteDescription]
    with data that is neither an [RTCSessionDescription] instance nor a
    mapping (a null, a string, a list, ...) raise a [TypeError] when the data
    is spread into keyword arguments: no constructor or engine call is made
    and the state is unchanged. *)
Theorem setDescription_not_a_mapping s method dataChannelId data :
  method = "handler.setLocalDescription" \/ method = "handler.setRemoteDescription" ->
  isinstance data "RTCSessionDescription" = false ->
  (forall kwargs, data <> PyDict kwargs) ->
  processRequest (Request.mk method dataChannelId data) s
  = (inl (TypeError ("argument after ** must be a mapping, not " +:+ py_typename data)), s).
Proof.
  intros Hm Hi Hd.
  destruct data as [| | | | | | |kwargs| |cls attrs];
    try (destruct Hm as [-> | ->]; reflexivity).
  - by destruct (Hd kwargs).
  - destruct Hm as [-> | ->]; unfold processRequest;
      cbn [Request.method Request.data String.eqb Ascii.eqb Bool.eqb];
      by rewrite Hi.
Qed.

End HandlerFacts.

(** ** The dispatch tables *)

Lemma dispatched_methods_dispatched : Forall dispatched_method dispatched_methods.
Proof.
  unfold dispatched_methods.
  repeat (apply Forall_cons; split;
    [intros H; specialize (H Demo.engine Demo.handler None PyNone);
     vm_compute in H; discriminate H|]).
  apply Forall_nil_2.
Qed.

Lemma dispatched_method_iff method :
  dispatched_method method <-> method ∈ dispatched_methods.
Proof.
  split.
  - intros H. destruct (decide (method ∈ dispatched_methods)) as [|Hn]; [done|].
    destruct H. by apply unsupported_method_intro.
  - intros H. pose proof dispatched_methods_dispatched as Hall.
    rewrite Forall_forall in Hall. by apply Hall.
Qed.

(** C7, as the code has it.  [processRequest] dispatches twelve method
    names, the ones of [dispatched_methods] and no other.  A request with any
    other method name raises the dispatcher's [TypeError] for an unknown
    request, the failure the specification calls UnsupportedOperation, and
    leaves the state as it was; a notification whose event is not one of the
    six of [dispatched_events] raises the [TypeError] for an unknown
    notification in the same way. *)
Theorem unknown_names_UnsupportedOperation :
  NoDup dispatched_methods
  /\ length dispatched_methods = 12%nat
  /\ (forall method, dispatched_method method <-> method ∈ dispatched_methods)
  /\ (forall (E : Engine) (s : @Handler E) method dataChannelId data,
        method ∉ dispatched_methods ->
        processRequest (Request.mk method dataChannelId data) s
        = (inl (unknown_request method), s)
        /\ spec_error_kind (unknown_request method) = Some UnsupportedOperation)
  /\ (forall (E : Engine) (s : @Handler E) event dataChannelId data,
        event ∉ dispatched_events ->
        processNotification (Notification.mk event dataChannelId data) s
        = (inl (unknown_notification event), s)
        /\ spec_error_kind (unknown_notification event) = Some UnsupportedOperation).
Proof.
  split_and!.
  - apply (bool_decide_unpack (NoDup dispatched_methods)). vm_compute. exact I.
  - reflexivity.
  - apply dispatched_method_iff.
  - intros E s method dataChannelId data H. split; [|reflexivity].
    by apply unsupported_method_intro.
  - intros E s event dataChannelId data H. split; [|reflexivity].
    by apply unsupported_event_intro.
Qed.

(** C7, as the claim words it, fails on its count: there are no thirteen
    distinct method names that [processRequest] dispatches. *)
Lemma thirteen_dispatched_methods_refuted :
  ~ (exists names : list string,
       NoDup names /\ length names = 13%nat
       /\ (forall method, method ∈ names -> dispatched_method method)
       /\ (forall method, method ∉ names -> unsupported_method method)).
Proof.
  intros (names & Hnd & Hlen & Hall & _).
  assert (names ⊆+ dispatched_methods) as Hsub.
  { apply NoDup_submseteq; [done|]. intros m Hm. by apply dispatched_method_iff, Hall. }
  apply submseteq_length in Hsub. rewrite Hlen in Hsub. simpl in Hsub. lia.
Qed.

(** ** The guard of the description setters *)


(** ** The theorems at work on the small engine *)

Lemma datachannel_close_idempotent_witness :
  dict_get (_dataChannels Demo.handler) (Some "dc1") = None
  /\ processNotification Demo.close_dc1 Demo.handler = (inr tt, Demo.handler)
  /\ dict_get (_dataChannels Demo.with_dc1) (Some "dc1") = Some 0%nat
  /\ dict_get
       (_dataChannels
          (set_dataChannels (dict_del (_dataChannels Demo.with_dc1) (Some "dc1"))
             Demo.with_dc1)) (Some "dc1") = None.
Proof.
  destruct (datachannel_close_idempotent Demo.handler "dc1" PyNone) as (Habsent & _ & _).
  destruct (datachannel_close_idempotent Demo.with_dc1 "dc1" PyNone) as (_ & _ & Hpresent).
  split_and!.
  - reflexivity.
  - apply Habsent. reflexivity.
  - reflexivity.
  - apply (Hpresent 0%nat). reflexivity.
Defined.

Lemma removeTrack_getMid_NotFound_witness :
  exists e,
    processRequest
      (Request.mk "handler.removeTrack" None (PyDict [("trackId", PyStr "nope")]))
      Demo.with_track = (inl e, Demo.with_track)
    /\ e = KeyError (PyStr "nope")
    /\ spec_error_kind e = Some NotFound
    /\ _transceivers
         (snd (processRequest
                 (Request.mk "handler.removeTrack" None
                    (PyDict [("trackId", PyStr "nope")])) Demo.with_track))
       = _transceivers Demo.with_track.
Proof.
  apply (removeTrack_getMid_NotFound Demo.with_track "nope" "handler.removeTrack" None
           (PyDict [("trackId", PyStr "nope")])).
  - left. reflexivity.
  - reflexivity.
  - vm_compute. reflexivity.
Defined.

Lemma stats_by_unknown_mid_AttributeError_witness :
  processRequest
    (Request.mk "handler.getSenderStats" None (PyDict [("mid", PyStr "0")]))
    Demo.with_track
  = (inl (AttributeError "'NoneType' object has no attribute 'sender'"), Demo.with_track).
Proof.
  apply (stats_by_unknown_mid_AttributeError Demo.with_track "0" None
           (PyDict [("mid", PyStr "0")])).
  - reflexivity.
  - repeat constructor. vm_compute. discriminate.
Defined.

Lemma poller_one_notification_per_channel_witness :
  exists emitted,
    fst (checkDataChannelsBufferedAmount [] Demo.with_dc1) = inr tt
    /\ _dataChannels (snd (checkDataChannelsBufferedAmount [] Demo.with_dc1))
       = _dataChannels Demo.with_dc1
    /\ trace (snd (checkDataChannelsBufferedAmount [] Demo.with_dc1))
       = trace Demo.with_dc1 ++ emitted
    /\ length emitted = 1%nat.
Proof.
  destruct (poller_one_notification_per_channel Demo.with_dc1 [])
    as (emitted & H1 & H2 & H3 & H4 & _).
  - vm_compute. apply NoDup_singleton.
  - exists emitted. split_and!; [exact H1 | exact H2 | exact H3 | exact H4].
Defined.

Lemma getTransportStats_recognized_types_witness :
  exists result,
    fst (processRequest (Request.mk "handler.getTransportStats" None PyNone)
           Demo.with_report) = inr (PyDict result)
    /\ dict_get result "codec_1" = None
    /\ is_Some (dict_get result "in_1").
Proof.
  destruct (getTransportStats_recognized_types Demo.with_report None PyNone
              Demo.sample_report (_pc Demo.with_report))
    as (result & Hr & _ & Hget & _).
  - reflexivity.
  - split.
    + unfold dict_wf. vm_compute.
      repeat (apply NoDup_cons; split; [rewrite ?elem_of_cons, elem_of_nil; intros H;
        repeat destruct H as [H|H]; try discriminate H; done|]).
      apply NoDup_nil_2.
    + repeat (apply Forall_cons; split; [eexists; split; [reflexivity|];
        intros names [= <-]; repeat (apply Forall_cons; split; [by eexists|]);
        apply Forall_nil_2 |]).
      apply Forall_nil_2.
  - exists result. split_and!; [exact Hr | by rewrite Hget | by rewrite Hget].
Defined.

Lemma unknown_names_UnsupportedOperation_witness :
  processRequest (Request.mk "handler.bogus" None PyNone) Demo.handler
  = (inl (unknown_request "handler.bogus"), Demo.handler)
  /\ processNotification (Notification.mk "datachannel.bogus" None PyNone) Demo.handler
     = (inl (unknown_notification "datachannel.bogus"), Demo.handler).
Proof.
  destruct unknown_names_UnsupportedOperation as (_ & _ & _ & Hreq & Hnot).
  split.
  - apply (Hreq Demo.engine Demo.handler "handler.bogus" None PyNone).
    apply (bool_decide_unpack ("handler.bogus" ∉ dispatched_methods)).
    vm_compute. exact I.
  - apply (Hnot Demo.engine Demo.handler "datachannel.bogus" None PyNone).
    apply (bool_decide_unpack ("datachannel.bogus" ∉ dispatched_events)).
    vm_compute. exact I.
Defined.

Lemma createDataChannel_roundtrip_witness :
  exists descriptor,
    fst (processRequest Demo.create_dc1 Demo.handler) = inr (PyDict descriptor)
    /\ dict_get descriptor "ordered" = Some (PyBool true)
    /\ dict_get descriptor "maxPacketLifeTime" = Some PyNone
    /\ dict_get descriptor "maxRetransmits" = Some (PyInt 3)
    /\ dict_get descriptor "label" = Some (PyStr "chat")
    /\ dict_get descriptor "protocol" = Some (PyStr "").
Proof.
  destruct (createDataChannel_roundtrip Demo.handler (Some "dc1")
              [("id", PyInt 1); ("ordered", PyBool true); ("maxRetransmits", PyInt 3);
               ("label", PyStr "chat"); ("protocol", PyStr "")]
              0%nat (_pc Demo.with_dc1))
    as (descriptor & Hr & Ho & Hl & Hm & Hlab & Hp & _); try reflexivity.
  exists descriptor.
  split_and!; [exact Hr | exact Ho | exact Hl | exact Hm | exact Hlab | exact Hp].
Defined.


Lemma addTrack_then_getMid_witness :
  fst (processRequest
         (Request.mk "handler.addTrack" None
            (PyDict [("playerId", PyStr "alice"); ("kind", PyStr "audio")]))
         Demo.handler)
  = inr (PyDict [("trackId", PyStr "track-of-alice")]).
Proof.
  destruct (addTrack_then_getMid Demo.handler None
              (PyDict [("playerId", PyStr "alice"); ("kind", PyStr "audio")])
              (PyStr "alice") (PyStr "audio") "track-of-alice" 0%nat
              (_pc Demo.with_track) eq_refl eq_refl eq_refl eq_refl) as (H & _).
  exact H.
Defined.

Lemma removeTrack_teardown_witness :
  fst (processRequest
         (Request.mk "handler.removeTrack" None
            (PyDict [("trackId", PyStr "track-of-alice")]))
         Demo.with_track) = inr PyNone
  /\ fst (processRequest
            (Request.mk "handler.removeTrack" None (PyDict [("trackId", PyStr "t9")]))
            Lab.stale) = inl (EngineError "InvalidStateError").
Proof.
  split.
  - destruct (removeTrack_teardown Demo.with_track None
                (PyDict [("trackId", PyStr "track-of-alice")]) "track-of-alice" 0%nat)
      as (Hok & _).
    + reflexivity.
    + vm_compute. reflexivity.
    + destruct (Hok (_pc Demo.with_track) (_pc Demo.with_track)) as (H & _);
        [reflexivity | reflexivity | exact H].
  - destruct (removeTrack_teardown Lab.stale None
                (PyDict [("trackId", PyStr "t9")]) "t9" 7%nat)
      as (_ & Hfail).
    + reflexivity.
    + vm_compute. reflexivity.
    + destruct (Hfail "InvalidStateError" Demo.empty eq_refl) as (H & _). exact H.
Defined.

Lemma missing_request_field_BadRequest_witness :
  processRequest (Request.mk "handler.getMid" None (PyDict [])) Demo.handler
  = (inl (TypeError "missing trackId"), Demo.handler)
  /\ processRequest (Request.mk "handler.getSenderStats" None (PyDict [])) Demo.handler
     = (inl (TypeError "missing mid"), Demo.handler).
Proof.
  split.
  - destruct (missing_request_field_BadRequest Demo.handler "handler.getMid" None
                (PyDict [])) as (H & _).
    apply H; [right; reflexivity | reflexivity].
  - destruct (missing_request_field_BadRequest Demo.handler "handler.getSenderStats" None
                (PyDict [])) as (_ & H & _).
    apply H; [left; reflexivity | reflexivity].
Defined.

Lemma missing_dataChannelId_BadRequest_witness :
  processNotification (Notification.mk "datachannel.send" None (PyStr "hello"))
    Demo.with_dc1
  = (inl (TypeError "missing dataChannelId"), Demo.with_dc1).
Proof.
  apply (missing_dataChannelId_BadRequest Demo.with_dc1 "datachannel.send" (PyStr "hello")).
  apply list_elem_of_here.
Defined.

Lemma datachannel_unregistered_NotFound_witness :
  processNotification (Notification.mk "datachannel.send" (Some "dc1") (PyStr "hello"))
    Demo.handler
  = (inl (KeyError (PyStr "dc1")), Demo.handler).
Proof.
  apply (datachannel_unregistered_NotFound Demo.handler "datachannel.send" "dc1"
           (PyStr "hello")).
  - apply list_elem_of_here.
  - reflexivity.
Defined.

Lemma datachannel_send_reports_bufferedAmount_witness :
  _dataChannels
    (snd (processNotification
            (Notification.mk "datachannel.send" (Some "dc1") (PyStr "hello"))
            Demo.with_dc1))
  = _dataChannels Demo.with_dc1.
Proof.
  destruct (datachannel_send_reports_bufferedAmount Demo.with_dc1 "dc1" (PyStr "hello")
              0%nat) as (H & _); [reflexivity | exact H].
Defined.

Lemma on_close_removes_and_notifies_once_witness :
  fst (on_close (Some "dc1") Demo.with_dc1) = inr tt
  /\ trace (snd (on_close (Some "dc1") Demo.with_dc1))
     = trace Demo.with_dc1 ++ [Notify (Some "dc1") "close" PyNone].
Proof.
  destruct (on_close_removes_and_notifies_once Demo.with_dc1 (Some "dc1") 0%nat eq_refl)
    as (H1 & H2 & _).
  split; [exact H1 | exact H2].
Defined.

Lemma createDataChannel_replaces_witness :
  dict_get
    (_dataChannels (snd (processRequest Demo.create_dc1 Demo.with_dc1))) (Some "dc1")
  = Some 1%nat
  /\ dict_keys (_dataChannels (snd (processRequest Demo.create_dc1 Demo.with_dc1)))
     = [Some "dc1"].
Proof.
  destruct (createDataChannel_replaces Demo.with_dc1 (Some "dc1")
              [("id", PyInt 1); ("ordered", PyBool true); ("maxRetransmits", PyInt 3);
               ("label", PyStr "chat"); ("protocol", PyStr "")]
              1%nat (_pc (snd (processRequest Demo.create_dc1 Demo.with_dc1))) eq_refl)
    as (H1 & _ & H3 & _).
  split; [exact H1 | exact H3].
Defined.

Lemma createDataChannel_engine_error_witness :
  fst (processRequest
         (Request.mk "handler.createDataChannel" (Some "dc2") (PyDict Lab.both_limits))
         Lab.handler) = inl (EngineError "ValueError")
  /\ _dataChannels
       (snd (processRequest
               (Request.mk "handler.createDataChannel" (Some "dc2")
                  (PyDict Lab.both_limits)) Lab.handler)) = [].
Proof.
  destruct (createDataChannel_engine_error Lab.handler (Some "dc2") Lab.both_limits
              "ValueError" Demo.empty eq_refl) as (H1 & H2 & _).
  split; [exact H1 | exact H2].
Defined.

Lemma getLocalDescription_reads_witness :
  fst (processRequest (Request.mk "handler.getLocalDescription" None PyNone) Demo.handler)
  = inr PyNone
  /\ fst (processRequest (Request.mk "handler.getLocalDescription" None PyNone)
            (set_pc (E:=Demo.engine)
               (Demo.mk_state Lab.offer [] [] []) Demo.handler))
     = inr (PyDict [("type", PyStr "offer"); ("sdp", PyStr "v=0")]).
Proof.
  split.
  - destruct (getLocalDescription_reads Demo.handler None PyNone) as (_ & H & _).
    apply H. reflexivity.
  - destruct (getLocalDescription_reads
                (set_pc (E:=Demo.engine) (Demo.mk_state Lab.offer [] [] []) Demo.handler)
                None PyNone) as (_ & _ & H).
    apply (H "RTCSessionDescription" [("sdp", PyStr "v=0"); ("type", PyStr "offer")]);
      reflexivity.
Defined.

Lemma datachannel_sendBinary_decodes_first_witness :
  fst (processNotification
         (Notification.mk "datachannel.sendBinary" (Some "dc1") (PyStr "not base64!"))
         Lab.with_dc1) = inl (EngineError "binascii.Error")
  /\ fst (processNotification
            (Notification.mk "datachannel.sendBinary" (Some "dc1") (PyStr "aGk="))
            Lab.with_dc1) = inr tt.
Proof.
  split.
  - destruct (datachannel_sendBinary_decodes_first Lab.with_dc1 "dc1"
                (PyStr "not base64!") 0%nat eq_refl) as (H & _).
    destruct (H "binascii.Error" eq_refl) as (H1 & _). exact H1.
  - destruct (datachannel_sendBinary_decodes_first Lab.with_dc1 "dc1"
                (PyStr "aGk=") 0%nat eq_refl) as (_ & H).
    destruct (H (list_byte_of_string "hi")
                (snd (dc_send Lab.engine 0%nat (PyBytes (list_byte_of_string "hi"))
                        (_pc Lab.with_dc1))) eq_refl eq_refl) as (H1 & _).
    exact H1.
Defined.

Lemma sample_report_engine_report : engine_report Demo.sample_report.
Proof.
  split.
  - unfold dict_wf. vm_compute.
    repeat (apply NoDup_cons; split; [rewrite ?elem_of_cons, elem_of_nil; intros H;
      repeat destruct H as [H|H]; try discriminate H; done|]).
    apply NoDup_nil_2.
  - repeat (apply Forall_cons; split; [eexists; split; [reflexivity|];
      intros names [= <-]; repeat (apply Forall_cons; split; [by eexists|]);
      apply Forall_nil_2 |]).
    apply Forall_nil_2.
Defined.

Lemma stats_by_mid_select_by_direction_witness :
  exists result,
    fst (processRequest
           (Request.mk "handler.getSenderStats" None (PyDict [("mid", PyStr "0")]))
           Lab.with_track_and_report) = inr (PyDict result)
    /\ dict_get result "in_1" = None
    /\ is_Some (dict_get result "tr_1").
Proof.
  destruct (stats_by_mid_select_by_direction Lab.with_track_and_report None
              (PyDict [("mid", PyStr "0")]) "0" 0%nat Demo.sample_report
              (_pc Lab.with_track_and_report) eq_refl eq_refl
              sample_report_engine_report) as (Hsender & _).
  destruct (Hsender eq_refl) as (result & Hr & Hget).
  exists result. split_and!; [exact Hr | by rewrite Hget | by rewrite Hget].
Defined.

Lemma registry_identifiers_stay_unique_witness :
  dict_wf
    (_dataChannels
       (run [InRequest Demo.create_dc1; InRequest Demo.create_dc1;
             InDataChannel (Some "dc1") EvClose] Demo.handler)).
Proof.
  destruct (registry_identifiers_stay_unique (E:=Demo.engine)
              [InRequest Demo.create_dc1; InRequest Demo.create_dc1;
               InDataChannel (Some "dc1") EvClose]) as (_ & H & _).
  apply H. apply NoDup_nil_2.
Defined.

Lemma transceivers_changed_only_by_track_requests_witness :
  _transceivers (step (InRequest Demo.create_dc1) Demo.with_track)
  = _transceivers Demo.with_track.
Proof.
  apply (transceivers_changed_only_by_track_requests (InRequest Demo.create_dc1)
           Demo.with_track).
  intros request [= <-]. split; discriminate.
Defined.

Lemma createOffer_createAnswer_results_witness :
  fst (processRequest (Request.mk "handler.createOffer" None PyNone) Lab.handler)
  = inr (PyDict [("type", PyStr "offer"); ("sdp", PyStr "v=0")])
  /\ fst (processRequest (Request.mk "handler.createAnswer" None PyNone) Lab.handler)
     = inl (EngineError "no remote description").
Proof.
  destruct (createOffer_createAnswer_results Lab.handler None PyNone)
    as (Hoffer & _ & _ & Hanswer & _).
  split.
  - apply (Hoffer "RTCSessionDescription"
             [("sdp", PyStr "v=0"); ("type", PyStr "offer")] (PyStr "offer")
             (PyStr "v=0") Demo.empty); reflexivity.
  - apply (Hanswer "no remote description" Demo.empty). reflexivity.
Defined.

Lemma setDescription_not_a_mapping_witness :
  processRequest (Request.mk "handler.setRemoteDescription" None PyNone) Demo.handler
  = (inl (TypeError "argument after ** must be a mapping, not NoneType"), Demo.handler).
Proof.
  apply (setDescription_not_a_mapping Demo.handler "handler.setRemoteDescription" None
           PyNone).
  - right. reflexivity.
  - reflexivity.
  - discriminate.
Defined.

Lemma serializers_all_or_nothing_witness :
  (exists d,
     _serializeInboundStats Demo.inbound_entry = inr (PyDict d)
     /\ map fst d = ["timestamp"; "type"; "id"; "ssrc"; "kind"; "transportId";
                     "packetsReceived"; "packetsLost"; "jitter"])
  /\ (exists e, _serializeInboundStats Demo.codec_entry = inl e).
Proof.
  split.
  - destruct (serializers_all_or_nothing Demo.inbound_entry) as ((Hok & _) & _).
    destruct (_serializeInboundStats Demo.inbound_entry) as [e|v] eqn:Heq.
    + vm_compute in Heq. discriminate Heq.
    + destruct Hok as (d & -> & Hn & _). exists d. split; [reflexivity | exact Hn].
  - destruct (serializers_all_or_nothing Demo.codec_entry) as ((_ & Hfail) & _).
    apply (Hfail "ssrc").
    + apply list_elem_of_further, list_elem_of_further, list_elem_of_further,
        list_elem_of_here.
    + intros a. vm_compute. discriminate.
Defined.
